(** * stepRNA: the overhang counting script

    A shallow embedding of [stepRNA-script_oldV2.py]: command-line
    arguments, the construction of the two bowtie2 commands, the loop that
    classifies every alignment record and counts it in five [defaultdict]s,
    and the percentage normalisation that feeds the terminal histogram.

    Python objects mutated in place (the dictionaries, the two density
    lists) are threaded as explicit state; a raised exception is a
    [Raise] result, and the state reached before the exception is kept,
    as it is in Python. *)

From Stdlib Require Import ZArith QArith Qround String Ascii List Lia Lqa.
From stdpp Require Import gmap strings list fin_maps pretty sorting.

Open Scope string_scope.
Open Scope list_scope.
Open Scope Z_scope.

(** ** Python primitives used by the script *)

Module Py.

(** The exception classes that occur; all derive from [Exception], so
    the [except Exception] of the main loop catches each of them. *)
Inductive exn : Type :=
| ZeroDivisionError
| IndexError
| KeyError
| ValueError
| TypeError
| StopIteration
| OSError.

Inductive result (A : Type) : Type :=
| Ok (a : A)
| Raise (e : exn).
Arguments Ok {A} a.
Arguments Raise {A} e.

Definition bind {A B} (r : result A) (k : A -> result B) : result B :=
  match r with
  | Ok a => k a
  | Raise e => Raise e
  end.

Definition is_ok {A} (r : result A) : bool :=
  match r with Ok _ => true | Raise _ => false end.

(** [a or b] on strings: the first operand when it is truthy (a
    non-empty string), otherwise the second. *)
Definition or_ (a b : string) : string :=
  match a with
  | EmptyString => b
  | String _ _ => a
  end.

(** [needle in hay] on strings: substring test. *)
Fixpoint str_in (needle hay : string) : bool :=
  String.prefix needle hay ||
  match hay with
  | EmptyString => false
  | String _ rest => str_in needle rest
  end.

(** ['{}'.format(n)] and [str(n)] for an [int]: decimal digits, with a
    leading minus sign for a negative number. *)
Definition str (n : Z) : string := pretty n.

(** [c.isspace()] for an ASCII character: tab to carriage return, the
    four separators 28 to 31, and the blank. *)
Definition is_space (c : ascii) : bool :=
  let n := nat_of_ascii c in
  ((9 <=? n)%nat && (n <=? 13)%nat)
  || ((28 <=? n)%nat && (n <=? 32)%nat).

(** [str.split()] without argument: fields separated by runs of white
    space, no empty field. *)

Fixpoint split_go (cur : string) (s : string) : list string :=
  match s with
  | EmptyString =>
      match cur with EmptyString => [] | _ => [String.rev cur] end
  | String c rest =>
      if is_space c
      then match cur with
           | EmptyString => split_go EmptyString rest
           | _ => String.rev cur :: split_go EmptyString rest
           end
      else split_go (String c cur) rest
  end.

Definition split (s : string) : list string := split_go EmptyString s.

(** [int(s)] for a string: optional surrounding white space, an
    optional sign, then decimal digits in which single underscores may
    separate digits; anything else is a [ValueError]. *)
Definition digit_of (c : ascii) : option Z :=
  let n := nat_of_ascii c in
  if ((48 <=? n)%nat && (n <=? 57)%nat)%bool
  then Some (Z.of_nat (n - 48)) else None.

Fixpoint lstrip (s : string) : string :=
  match s with
  | String c rest => if is_space c then lstrip rest else s
  | EmptyString => EmptyString
  end.

Definition strip (s : string) : string :=
  String.rev (lstrip (String.rev (lstrip s))).

(** [digits acc after_digit s]: [after_digit] tells whether the
    previous character was a digit, the only place where an underscore
    or the end of the literal is allowed. *)
Fixpoint digits (acc : Z) (after_digit : bool) (s : string) : result Z :=
  match s with
  | EmptyString => if after_digit then Ok acc else Raise ValueError
  | String c rest =>
      match digit_of c with
      | Some d => digits (10 * acc + d) true rest
      | None =>
          if (Ascii.eqb c "_" && after_digit)%bool
          then digits acc false rest
          else Raise ValueError
      end
  end.

Definition int (s : string) : result Z :=
  match strip s with
  | String "-" rest => bind (digits 0 false rest) (fun n => Ok (- n))
  | String "+" rest => digits 0 false rest
  | body => digits 0 false body
  end.

(** [l[i]] on a list: [IndexError] out of range (the script only uses
    non-negative constant or [range] indices). *)
Definition index {A} (l : list A) (i : nat) : result A :=
  match l !! i with
  | Some a => Ok a
  | None => Raise IndexError
  end.

(** A [defaultdict(lambda: 0)]: reading a missing key gives 0. *)
Definition get0 `{Countable K} (d : gmap K Z) (k : K) : Z :=
  default 0 (d !! k).

(** [d[k] += 1] on a [defaultdict(lambda: 0)]. *)
Definition incr `{Countable K} (d : gmap K Z) (k : K) : gmap K Z :=
  <[k := get0 d k + 1]> d.

(** Sum of rationals, the exact counterpart of adding Python floats. *)
Definition qsum (l : list Q) : Q := fold_right Qplus (0 # 1)%Q l.

End Py.

Import Py.

(** ** Command-line arguments *)

(** The namespace returned by [parser.parse_args()].  [min_score] is an
    [int] whose default is -1; the two flags are [store_true]. *)
Module args.
Record t : Type := mk {
  reference : string;
  reads : string;
  name : option string;
  directory : string;
  min_score : Z;
  remove_exact : bool;
  make_unique : bool
}.
End args.

(** ** Alignment files as pysam presents them *)

(** An [AlignedSegment].  [reference_positions] is the value of
    [get_reference_positions(full_length=True)]: one entry per query
    base, [None] for a soft-clipped or inserted base.  [reference_name]
    is [None] for a record without reference. *)
Record AlignedSegment : Type := mkSegment {
  cigarstring : option string;
  reference_positions : list (option Z);
  query_length : Z;
  reference_name : option string
}.

(** An [AlignmentFile]: the reference names and lengths of the header
    and the records in file order. *)
Record AlignmentFile : Type := mkAlignmentFile {
  references : list string;
  lengths : list Z;
  segments : list AlignedSegment
}.

(** The [CompletedProcess] returned by [subprocess.run]. *)
Record CompletedProcess : Type := mkCompleted {
  process_args : list string;
  returncode : Z
}.

(** ** From the arguments to the aligner command (lines 65-109) *)

(** What the script asks of the outside world, in program order. *)
Inductive event : Type :=
| ev_print (text : string)
| ev_remove_exact (ref reads : string)
| ev_make_unique (path : string)
| ev_mini_maxi (path : string)
| ev_run (command : list string).

(** The variables of the script that are live when the aligner starts. *)
Record vars : Type := mkVars {
  v_ref : string;
  v_reads : string;
  v_min_score : Z;
  v_prefix : string;
  v_ref_base : string;
  v_minimum : Z;
  v_maximum : Z;
  v_sam_file : string;
  v_command : list string
}.

Section Front.

(** Helpers of the package and of [os.path] that the script calls; the
    script only passes their results on. *)
Variable check_dir : string -> string.
Variable splitext_root : string -> string.     (* os.path.splitext(p)[0] *)
Variable path_join : string -> string -> string.
Variable basename : string -> string.
Variable replace_ext : string -> string -> string.
(** [make_unique path] writes a file with unique headers and returns
    its path. *)
Variable make_unique : string -> string.
(** [mini_maxi path] is the pair of the shortest and the longest
    sequence length of a FASTA file. *)
Variable mini_maxi : string -> Z * Z.

(** Lines 70-73. *)
Definition filename (a : args.t) : string :=
  match args.name a with
  | None => splitext_root (args.reads a)
  | Some n => n
  end.

(** Line 76. *)
Definition prefix (a : args.t) : string :=
  path_join (check_dir (args.directory a)) (filename a).

(** Line 85: [reads = make_unique(reads)]. *)
Definition assign_reads_85 (ref reads : string) : string :=
  make_unique reads.

(** Line 86: [reads = make_unique(ref)]. *)
Definition assign_reads_86 (ref reads : string) : string :=
  make_unique ref.

(** Lines 84-86: the value of [reads] after the block. *)
Definition reads_after_unique (a : args.t) : string :=
  let ref := args.reference a in
  let reads := args.reads a in
  if args.make_unique a
  then
    let reads := assign_reads_85 ref reads in
    let reads := assign_reads_86 ref reads in
    reads
  else reads.

(** Lines 89-91. *)
Definition build_command (ref : string) : list string :=
  let ref_base := splitext_root ref in
  Py.split ("bowtie2-build " +:+ ref +:+ " " +:+ ref_base).

(** Lines 99-102. *)
Definition scaled_min_score (min_score minimum : Z) : Z :=
  if negb (min_score =? -1) then 3 * min_score else 3 * minimum.

(** Line 107. *)
Definition bowtie2_command
    (ref_base reads : string) (maximum min_score : Z) (sam_file : string)
  : list string :=
  ["bowtie2"; "-x"; ref_base; "-U"; reads; "-f"; "-N"; "0"; "-L"; "10";
   "--no-1mm-upfront"; "--nofw"; "--local"; "--ma"; "3";
   "--mp"; Py.str maximum +:+ "," +:+ Py.str maximum;
   "--score-min"; "L," +:+ Py.str min_score +:+ ",0";
   "-S"; sam_file].

(** Lines 66-107: the variables when the aligner is about to run. *)
Definition setup (a : args.t) : vars :=
  let ref := args.reference a in
  let reads := reads_after_unique a in
  let min_score := args.min_score a in
  let prefix := prefix a in
  let ref_base := splitext_root ref in
  let '(minimum, maximum) := mini_maxi reads in
  let min_score := scaled_min_score min_score minimum in
  let sam_file := replace_ext prefix ".sam" in
  {| v_ref := ref; v_reads := reads; v_min_score := min_score;
     v_prefix := prefix; v_ref_base := ref_base;
     v_minimum := minimum; v_maximum := maximum;
     v_sam_file := sam_file;
     v_command := bowtie2_command ref_base reads maximum min_score sam_file |}.

(** Lines 77-109: the calls and prints, in program order. *)
Definition setup_trace (a : args.t) : list event :=
  let v := setup a in
  [ev_print (v_prefix v)]
  ++ (if args.remove_exact a
      then [ev_remove_exact (args.reference a) (args.reads a)] else [])
  ++ (if args.make_unique a
      then [ev_make_unique (args.reads a);
            ev_make_unique (args.reference a)] else [])
  ++ [ev_run (build_command (v_ref v));
      ev_mini_maxi (v_reads v);
      ev_print ("Miniumum sequence length in " +:+ basename (v_reads v)
                +:+ ": " +:+ Py.str (v_minimum v));
      ev_print ("Maxiumum sequence length in " +:+ basename (v_reads v)
                +:+ ": " +:+ Py.str (v_maximum v));
      ev_run (v_command v)].

End Front.

(** ** Counting overhangs (lines 113-138) *)

(** The five dictionaries of the script and the per-type output
    partitions that [write_to_bam] fills. *)
Record tables : Type := mkTables {
  right_dic : gmap Z Z;
  left_dic : gmap Z Z;
  type_dic : gmap string Z;
  read_len_dic : gmap Z Z;
  refs_read_dic : gmap (option string) Z;
  partitions : gmap string (list AlignedSegment)
}.

(** Statements of the [try] block: they read and mutate the tables and
    may raise.  The tables reached when an exception is raised are kept:
    Python does not roll a dictionary back. *)
Definition M (A : Type) : Type := tables -> tables * result A.

Definition ret {A} (a : A) : M A := fun st => (st, Ok a).

Definition mbind {A B} (c : M A) (k : A -> M B) : M B :=
  fun st =>
    match c st with
    | (st', Ok a) => k a st'
    | (st', Raise e) => (st', Raise e)
    end.

Definition call {A} (r : result A) : M A := fun st => (st, r).

Definition modify (f : tables -> tables) : M unit := fun st => (f st, Ok tt).

Notation "x <- c ;; k" := (mbind c (fun x => k))
  (at level 100, c at next level, right associativity).
Notation "c ;;; k" := (mbind c (fun _ => k))
  (at level 100, right associativity).

Definition set_right_dic (f : gmap Z Z -> gmap Z Z) (st : tables) : tables :=
  {| right_dic := f (right_dic st); left_dic := left_dic st;
     type_dic := type_dic st; read_len_dic := read_len_dic st;
     refs_read_dic := refs_read_dic st; partitions := partitions st |}.

Definition set_left_dic (f : gmap Z Z -> gmap Z Z) (st : tables) : tables :=
  {| right_dic := right_dic st; left_dic := f (left_dic st);
     type_dic := type_dic st; read_len_dic := read_len_dic st;
     refs_read_dic := refs_read_dic st; partitions := partitions st |}.

Definition set_type_dic (f : gmap string Z -> gmap string Z) (st : tables) : tables :=
  {| right_dic := right_dic st; left_dic := left_dic st;
     type_dic := f (type_dic st); read_len_dic := read_len_dic st;
     refs_read_dic := refs_read_dic st; partitions := partitions st |}.

Definition set_read_len_dic (f : gmap Z Z -> gmap Z Z) (st : tables) : tables :=
  {| right_dic := right_dic st; left_dic := left_dic st;
     type_dic := type_dic st; read_len_dic := f (read_len_dic st);
     refs_read_dic := refs_read_dic st; partitions := partitions st |}.

Definition set_refs_read_dic
    (f : gmap (option string) Z -> gmap (option string) Z) (st : tables) : tables :=
  {| right_dic := right_dic st; left_dic := left_dic st;
     type_dic := type_dic st; read_len_dic := read_len_dic st;
     refs_read_dic := f (refs_read_dic st); partitions := partitions st |}.

Definition set_partitions
    (f : gmap string (list AlignedSegment) -> gmap string (list AlignedSegment))
    (st : tables) : tables :=
  {| right_dic := right_dic st; left_dic := left_dic st;
     type_dic := type_dic st; read_len_dic := read_len_dic st;
     refs_read_dic := refs_read_dic st; partitions := f (partitions st) |}.

(** Lines 115-119: five empty [defaultdict]s, nothing written yet. *)
Definition empty_tables : tables :=
  {| right_dic := ∅; left_dic := ∅; type_dic := ∅; read_len_dic := ∅;
     refs_read_dic := ∅; partitions := ∅ |}.

(** Lines 120-121: [for name in bam_in.references: refs_read_dic[name] = 0]. *)
Definition init_refs (names : list string) (st : tables) : tables :=
  fold_left (fun st name => set_refs_read_dic (fun d => <[Some name := 0]> d) st)
            names st.

(** The composite type key of line 133. *)
Definition composite (left_type right_type : string) : string :=
  left_type +:+ "_" +:+ right_type.

(** Line 125: [('D' or 'I') not in line.cigarstring]. *)
Definition passes_indel_filter (cigar : string) : bool :=
  negb (Py.str_in (Py.or_ "D" "I") cigar).

(** Modelled from the spec: [write_to_bam] of [stepRNA.output] is not
    part of the sources.  Section 4.2 has it append the record to the
    output partition of its composite type label; [fails] stands for the
    input/output errors of the file system, which raise before anything
    is written. *)
Definition write_to_bam
    (fails : AlignedSegment -> string -> bool)
    (line : AlignedSegment) (left_type right_type : string) (prefix : string)
  : M unit :=
  fun st =>
    let key := composite left_type right_type in
    if fails line (prefix +:+ "_" +:+ key)
    then (st, Raise OSError)
    else (set_partitions
            (fun p => <[key := default [] (p !! key) ++ [line]]> p) st,
          Ok tt).

Section Counting.

(** [right_overhang] and [left_overhang] of [stepRNA.commands]: each
    returns a pair of an overhang length and a type label, or raises. *)
Variable right_overhang :
  AlignmentFile -> AlignedSegment -> list (option Z) -> result (Z * string).
Variable left_overhang :
  AlignmentFile -> AlignedSegment -> list (option Z) -> result (Z * string).
(** Which partition writes fail. *)
Variable write_fails : AlignedSegment -> string -> bool.

Variable bam_in : AlignmentFile.
Variable prefix : string.

(** Lines 128-136, the body of the [try] ([right_] and [left_] are the
    script's [right] and [left]). *)
Definition try_body (line : AlignedSegment) (ref_pos : list (option Z)) : M unit :=
  r <- call (right_overhang bam_in line ref_pos) ;;
  l <- call (left_overhang bam_in line ref_pos) ;;
  let '(right_, right_type) := r in
  let '(left_, left_type) := l in
  modify (set_right_dic (fun d => Py.incr d right_)) ;;;
  modify (set_left_dic (fun d => Py.incr d left_)) ;;;
  modify (set_type_dic (fun d => Py.incr d (composite left_type right_type))) ;;;
  modify (set_read_len_dic (fun d => Py.incr d (query_length line))) ;;;
  modify (set_refs_read_dic (fun d => Py.incr d (reference_name line))) ;;;
  write_to_bam write_fails line left_type right_type prefix.

(** Lines 124-138, one iteration of the loop.  [except Exception:
    continue] drops the exception and goes on with the tables as they
    are. *)
Definition process_record (st : tables) (line : AlignedSegment) : tables :=
  match cigarstring line with
  | Some cigar =>
      if passes_indel_filter cigar
      then
        let ref_pos := reference_positions line in
        fst (try_body line ref_pos st)
      else st
  | None => st
  end.

(** Lines 123-138: [for line in bam_in]. *)
Definition count_records (st : tables) (lines : list AlignedSegment) : tables :=
  fold_left process_record lines st.

(** Lines 115-138. *)
Definition count_overhangs : tables :=
  count_records (init_refs (references bam_in) empty_tables) (segments bam_in).

(** A record is successfully classified when the [try] body runs to
    its end. *)
Definition classified (st : tables) (line : AlignedSegment) : bool :=
  match cigarstring line with
  | Some cigar =>
      passes_indel_filter cigar
      && Py.is_ok (snd (try_body line (reference_positions line) st))
  | None => false
  end.

End Counting.

(** ** The overhang classifier of the specification *)

(** [bam.get_reference_length(name)]: [KeyError] for an unknown name. *)
Fixpoint lookup_length (names : list string) (lens : list Z) (name : string)
  : result Z :=
  match names, lens with
  | n :: names', l :: lens' =>
      if String.eqb n name then Ok l else lookup_length names' lens' name
  | _, _ => Raise KeyError
  end.

Definition get_reference_length (bam : AlignmentFile) (name : option string)
  : result Z :=
  match name with
  | Some n => lookup_length (references bam) (lengths bam) n
  | None => Raise KeyError
  end.

(** A query base lies on the reference when it has a reference position
    and that position is not beyond the reference's end. *)
Definition on_reference (len : Z) (p : option Z) : bool :=
  match p with
  | Some x => (0 <=? x) && (x <? len)
  | None => false
  end.

(** Number of leading entries that do not satisfy [on]. *)
Fixpoint leading_off {A} (on : A -> bool) (pos : list A) : nat :=
  match pos with
  | p :: rest => if on p then O else S (leading_off on rest)
  | [] => O
  end.

(** The array without its leading entries that do not satisfy [on]. *)
Fixpoint strip_off {A} (on : A -> bool) (pos : list A) : list A :=
  match pos with
  | p :: rest => if on p then pos else strip_off on rest
  | [] => []
  end.

Definition trailing_off {A} (on : A -> bool) (pos : list A) : nat :=
  leading_off on (rev pos).

(** The query bases from the first to the last one on the reference. *)
Definition aligned_span {A} (on : A -> bool) (pos : list A) : list A :=
  rev (strip_off on (rev (strip_off on pos))).

Inductive side : Type := Left | Right.

(** The closed set of type labels: flush, 5'-overhang, 3'-overhang and
    indeterminate. *)
Definition type_label (s : side) (overhang : nat) (gap : bool) : string :=
  if gap then "indeterminate"
  else match overhang, s with
       | O, _ => "flush"
       | S _, Left => "5'-overhang"
       | S _, Right => "3'-overhang"
       end.

(** Modelled from the spec: [left_overhang] and [right_overhang] of
    [stepRNA.commands] are not part of the sources.  Section 4.1: the
    overhang length of an end is the number of query bases at that end
    with no corresponding reference position (or beyond the reference's
    end); the computation fails on a malformed position array (zero
    length, entirely unmapped).  The label is flush for length 0 and the
    5' or 3' overhang of the end otherwise; the specification leaves the
    rule for arrays with internal gaps open, and they are labelled
    indeterminate here. *)
Definition overhang (s : side)
    (bam : AlignmentFile) (line : AlignedSegment) (ref_pos : list (option Z))
  : result (Z * string) :=
  Py.bind (get_reference_length bam (reference_name line)) (fun len =>
    let on := on_reference len in
    if existsb on ref_pos
    then
      let n := match s with
               | Left => leading_off on ref_pos
               | Right => trailing_off on ref_pos
               end in
      let gap := existsb (fun p => negb (on p)) (aligned_span on ref_pos) in
      Ok (Z.of_nat n, type_label s n gap)
    else Raise ValueError).

(** Modelled from the spec: [left_overhang] of [stepRNA.commands], the
    overhang at the start of the query. *)
Definition left_overhang := overhang Left.

(** Modelled from the spec: [right_overhang] of [stepRNA.commands], the
    overhang at the end of the query. *)
Definition right_overhang := overhang Right.

(** Modelled from the spec: the matched length of a record is not
    computed by the sources.  Section 8 has it as the part of the read
    between the two overhangs: the query bases from the first to the
    last one that lies on the reference. *)
Definition matched_length (bam : AlignmentFile) (line : AlignedSegment)
  : result Z :=
  Py.bind (get_reference_length bam (reference_name line)) (fun len =>
    Ok (Z.of_nat (length (aligned_span (on_reference len)
                                        (reference_positions line))))).

(** ** The reporter *)

(** A CSV file: its rows, each a list of fields. *)
Definition csv : Type := list (list string).

(** Modelled from the spec: [make_csv] of [stepRNA.output] is not part
    of the sources.  Section 4.3: a header row, then one row per key,
    holding the key and its plain count in each table (0 where a table
    lacks the key). *)
Definition make_csv (dics : list (gmap Z Z)) (headers : list string) : csv :=
  let keys := elements (⋃ (map dom dics) : gset Z) in
  headers :: map (fun k => Py.str k :: map (fun d => Py.str (Py.get0 d k)) dics) keys.

(** Order of the rows of a sorted CSV: by key. *)
Definition key_le {K} (leb : K -> K -> bool) (a b : K * Z) : Prop :=
  Is_true (leb (fst a) (fst b)).

#[global] Instance key_le_dec {K} (leb : K -> K -> bool) (a b : K * Z) :
  Decision (key_le leb a b).
Proof. unfold key_le. apply _. Defined.

(** Modelled from the spec: [make_type_csv] of [stepRNA.output] is not
    part of the sources.  Section 4.3: a header row, then one row per
    key with the key and its plain count, sorted by key when [sort] is
    set. *)
Definition make_type_csv `{Countable K}
    (key_str : K -> string) (leb : K -> K -> bool)
    (dic : gmap K Z) (headers : list string) (sort : bool) : csv :=
  let items := map_to_list dic in
  let items :=
    if sort then merge_sort (key_le leb) items
    else items in
  headers :: map (fun kv => [key_str (fst kv); Py.str (snd kv)]) items.

Definition ref_str (name : option string) : string :=
  match name with Some n => n | None => "None" end.

(** Modelled from the spec: [print_hist] of [stepRNA.output] is not part
    of the sources.  Sections 4.3 and 7: one bar per key, labelled with
    the key and proportional to its percentage; an empty table gives an
    explicit no-data line. *)
Definition print_hist (density : list Q) (keys : list string) : list string :=
  match density with
  | [] => ["no data"]
  | _ =>
      map (fun kd : string * Q =>
             fst kd +:+ " "
             +:+ String.concat "" (replicate (Z.to_nat (Qfloor (snd kd))) "#"))
          (combine keys density)
  end.

(** *** Reading the overhang CSV back (lines 149-162) *)

Record summary : Type := mkSummary {
  keys : list string;
  left_dens : list Q;
  right_dens : list Q;
  left_tot : Z;
  right_tot : Z
}.

Notation "x <~ r ;; k" := (Py.bind r (fun x => k))
  (at level 100, r at next level, right associativity).

(** Lines 158-162, the body of [for line in csv_reader]. *)
Definition read_row (s : summary) (line : list string) : result summary :=
  k <~ Py.index line 0 ;;
  f1 <~ Py.index line 1 ;;
  l <~ Py.int f1 ;;
  f2 <~ Py.index line 2 ;;
  r <~ Py.int f2 ;;
  Ok {| keys := keys s ++ [k];
        left_dens := left_dens s ++ [inject_Z l];
        left_tot := left_tot s + l;
        right_dens := right_dens s ++ [inject_Z r];
        right_tot := right_tot s + r |}.

Fixpoint read_rows (s : summary) (rows : csv) : result summary :=
  match rows with
  | [] => Ok s
  | line :: rest => s' <~ read_row s line ;; read_rows s' rest
  end.

(** Lines 149-162: [next(csv_reader)] takes the header, the loop reads
    the rows. *)
Definition read_summary (file : csv) : result summary :=
  match file with
  | [] => Raise StopIteration
  | head :: rows =>
      read_rows {| keys := []; left_dens := []; right_dens := [];
                   left_tot := 0; right_tot := 0 |} rows
  end.

(** *** Normalisation to percentages (lines 165-167) *)

(** The value of [100 * x / tot] in exact arithmetic. *)
Definition percent_of (tot : Z) (x : Q) : Q :=
  Qdiv (Qmult (inject_Z 100) x) (inject_Z tot).

(** [100 * x / tot]: true division, [ZeroDivisionError] when [tot] is 0. *)
Definition percent (x : Q) (tot : Z) : result Q :=
  if tot =? 0 then Raise ZeroDivisionError else Ok (percent_of tot x).

(** Lines 166-167, one iteration: both lists are updated in place at
    index [key]. *)
Definition normalise_at (s : summary) (key : nat) : result summary :=
  x <~ Py.index (left_dens s) key ;;
  p <~ percent x (left_tot s) ;;
  let left_dens' := <[key := p]> (left_dens s) in
  y <~ Py.index (right_dens s) key ;;
  q <~ percent y (right_tot s) ;;
  let right_dens' := <[key := q]> (right_dens s) in
  Ok {| keys := keys s; left_dens := left_dens'; right_dens := right_dens';
        left_tot := left_tot s; right_tot := right_tot s |}.

Fixpoint normalise_loop (s : summary) (range : list nat) : result summary :=
  match range with
  | [] => Ok s
  | key :: rest => s' <~ normalise_at s key ;; normalise_loop s' rest
  end.

(** Lines 165-167: [for key in range(len(keys))]. *)
Definition normalise (s : summary) : result summary :=
  normalise_loop s (seq 0 (length (keys s))).

(** Lines 149-174: the lines printed for the two histograms, or the
    exception that ends the script. *)
Definition histograms (file : csv) : result (list string) :=
  s <~ read_summary file ;;
  s <~ normalise s ;;
  Ok (["Left Handside Overhang Histogram"]
      ++ print_hist (left_dens s) (keys s)
      ++ ["Right Handside Overhang Histogram"]
      ++ print_hist (right_dens s) (keys s)).

(** ** The whole script *)

(** What a run leaves behind: the tables after the loop, the four CSV
    files and the histogram lines (or the exception that ended the
    script while it printed them). *)
Record report : Type := mkReport {
  final : tables;
  overhang_csv : csv;
  type_csv : csv;
  read_len_csv : csv;
  ref_hits_csv : csv;
  histogram_lines : result (list string)
}.

(** Lines 141-174. *)
Definition report_of (st : tables) : report :=
  let overhang := make_csv [right_dic st; left_dic st] ["OH"; "Left"; "Right"] in
  {| final := st;
     overhang_csv := overhang;
     type_csv :=
       make_type_csv id String.leb (type_dic st) ["OH_type"; "count"] false;
     read_len_csv :=
       make_type_csv Py.str Z.leb (read_len_dic st) ["Read_length"; "count"] true;
     ref_hits_csv :=
       make_type_csv ref_str (fun _ _ => true) (refs_read_dic st)
                     ["Reference"; "count"] false;
     histogram_lines := histograms overhang |}.

Section Main.

Variable check_dir : string -> string.
Variable splitext_root : string -> string.
Variable path_join : string -> string -> string.
Variable replace_ext : string -> string -> string.
Variable make_unique : string -> string.
Variable mini_maxi : string -> Z * Z.
Variable right_overhang :
  AlignmentFile -> AlignedSegment -> list (option Z) -> result (Z * string).
Variable left_overhang :
  AlignmentFile -> AlignedSegment -> list (option Z) -> result (Z * string).
Variable write_fails : AlignedSegment -> string -> bool.
(** [sam_to_bam path] returns the path of the sorted BAM file, and
    [alignment_file path] is what [pysam.AlignmentFile(path, 'rb')]
    reads from the disk. *)
Variable sam_to_bam : string -> string.
Variable alignment_file : string -> AlignmentFile.

(** [subprocess.run(command)]: the outcome of the aligner process. *)
Variable run : list string -> CompletedProcess.

(** Lines 66-174. *)
Definition main (a : args.t) : report :=
  let v := setup check_dir splitext_root path_join replace_ext
                 make_unique mini_maxi a in
  let bowtie := run (v_command v) in
  let sorted_bam := sam_to_bam (v_sam_file v) in
  let bam_in := alignment_file sorted_bam in
  report_of (count_overhangs right_overhang left_overhang write_fails
                             bam_in (v_prefix v)).

End Main.

(** ** Vocabulary of the statements *)

(** [d'] is [d] with exactly one increment, at key [k]. *)
Definition incremented_at `{Countable K} (d d' : gmap K Z) (k : K) : Prop :=
  d' !! k = Some (Py.get0 d k + 1) /\ forall k', k' <> k -> d' !! k' = d !! k'.

(** [p'] is [p] with [line] written once, to the partition [key]. *)
Definition written_to (p p' : gmap string (list AlignedSegment))
    (key : string) (line : AlignedSegment) : Prop :=
  p' !! key = Some (default [] (p !! key) ++ [line])
  /\ forall key', key' <> key -> p' !! key' = p !! key'.

(** The five dictionaries of two states agree. *)
Definition same_counts (st st' : tables) : Prop :=
  right_dic st' = right_dic st /\ left_dic st' = left_dic st
  /\ type_dic st' = type_dic st /\ read_len_dic st' = read_len_dic st
  /\ refs_read_dic st' = refs_read_dic st.

(** The tables after the five increments of lines 131-135. *)
Definition counts_applied (st : tables) (line : AlignedSegment)
    (right_ left_ : Z) (left_type right_type : string) : tables :=
  {| right_dic := Py.incr (right_dic st) right_;
     left_dic := Py.incr (left_dic st) left_;
     type_dic := Py.incr (type_dic st) (composite left_type right_type);
     read_len_dic := Py.incr (read_len_dic st) (query_length line);
     refs_read_dic := Py.incr (refs_read_dic st) (reference_name line);
     partitions := partitions st |}.

Section Vocabulary.

Variable right_overhang :
  AlignmentFile -> AlignedSegment -> list (option Z) -> result (Z * string).
Variable left_overhang :
  AlignmentFile -> AlignedSegment -> list (option Z) -> result (Z * string).
Variable bam_in : AlignmentFile.

(** The loop reaches the [try] for [line] and both overhang functions
    return: [Some] of what they return. *)
Definition observed (line : AlignedSegment)
  : option (Z * string * (Z * string)) :=
  match cigarstring line with
  | Some cigar =>
      if passes_indel_filter cigar
      then
        match right_overhang bam_in line (reference_positions line),
              left_overhang bam_in line (reference_positions line) with
        | Ok r, Ok l => Some (r, l)
        | _, _ => None
        end
      else None
  | None => None
  end.

(** The loop reaches the [try] for [line] and one of the two overhang
    functions raises. *)
Definition classification_raises (line : AlignedSegment) : Prop :=
  exists cigar,
    cigarstring line = Some cigar /\ passes_indel_filter cigar = true
    /\ ((exists e, right_overhang bam_in line (reference_positions line) = Raise e)
        \/ (exists e, left_overhang bam_in line (reference_positions line) = Raise e)).

End Vocabulary.

(** The loop reaches the [try] for [line] and the [try] body raises,
    whichever statement does. *)
Definition body_raises
    (right_overhang left_overhang :
       AlignmentFile -> AlignedSegment -> list (option Z) -> result (Z * string))
    (write_fails : AlignedSegment -> string -> bool)
    (bam_in : AlignmentFile) (prefix : string)
    (st : tables) (line : AlignedSegment) : Prop :=
  exists cigar e,
    cigarstring line = Some cigar /\ passes_indel_filter cigar = true
    /\ snd (try_body right_overhang left_overhang write_fails bam_in prefix
                     line (reference_positions line) st) = Raise e.

(** Number of records of [lines] that the loop counts for the reference
    [name]. *)
Definition hits
    (right_overhang left_overhang :
       AlignmentFile -> AlignedSegment -> list (option Z) -> result (Z * string))
    (bam_in : AlignmentFile) (name : option string)
    (lines : list AlignedSegment) : nat :=
  length (filter (fun line =>
                    is_Some (observed right_overhang left_overhang bam_in line)
                    /\ reference_name line = name) lines).

(** The summary read so far has one density per key on each side, and
    each total is the sum of its column. *)
Record consistent (s : summary) : Prop := mkConsistent {
  left_length : length (left_dens s) = length (keys s);
  right_length : length (right_dens s) = length (keys s);
  left_total : Qeq (Py.qsum (left_dens s)) (inject_Z (left_tot s));
  right_total : Qeq (Py.qsum (right_dens s)) (inject_Z (right_tot s))
}.

(** Sample data: a read with an insertion, the read of the scenario of
    section 8 of the specification (20 bases, 3 unmapped at the 5' end
    and 2 at the 3' end), and a header with two references. *)
Definition read_with_insertion : AlignedSegment :=
  {| cigarstring := Some "5M1I5M";
     reference_positions :=
       [Some 0; Some 1; Some 2; Some 3; Some 4; None;
        Some 5; Some 6; Some 7; Some 8; Some 9];
     query_length := 11;
     reference_name := Some "ref1" |}.

Definition read_with_deletion : AlignedSegment :=
  {| cigarstring := Some "5M1D5M";
     reference_positions :=
       [Some 0; Some 1; Some 2; Some 3; Some 4;
        Some 6; Some 7; Some 8; Some 9; Some 10];
     query_length := 10;
     reference_name := Some "ref1" |}.

Definition clipped_read : AlignedSegment :=
  {| cigarstring := Some "3S15M2S";
     reference_positions :=
       [None; None; None]
       ++ map Some [0; 1; 2; 3; 4; 5; 6; 7; 8; 9; 10; 11; 12; 13; 14]
       ++ [None; None];
     query_length := 20;
     reference_name := Some "ref1" |}.

Definition sample_bam (lines : list AlignedSegment) : AlignmentFile :=
  {| references := ["ref1"; "ref2"]; lengths := [30; 40]; segments := lines |}.

Definition sample_args (score : Z) (unique : bool) : args.t :=
  {| args.reference := "ref.fa"; args.reads := "reads.fa";
     args.name := None; args.directory := "out"; args.min_score := score;
     args.remove_exact := false; args.make_unique := unique |}.

(** Sample helpers: paths are only renamed, and the reads are between 18
    and 30 bases long wherever they are read from. *)
Definition sample_splitext (path : string) : string := path +:+ ".root".
Definition sample_join (dir file : string) : string := dir +:+ "/" +:+ file.
Definition sample_replace_ext (path ext : string) : string := path +:+ ext.
Definition sample_unique (path : string) : string := path +:+ ".unique".
Definition sample_mini_maxi (path : string) : Z * Z := (18, 30).
Definition sample_setup : args.t -> vars :=
  setup id sample_splitext sample_join sample_replace_ext
        sample_unique sample_mini_maxi.

Definition never_fails : AlignedSegment -> string -> bool := fun _ _ => false.
Definition always_fails : AlignedSegment -> string -> bool := fun _ _ => true.

(** ** Vocabulary of the further properties *)

(** No character of [s] is white space. *)
Fixpoint no_space (s : string) : bool :=
  match s with
  | EmptyString => true
  | String c rest => negb (Py.is_space c) && no_space rest
  end.

(** A data row of the overhang CSV as the reader of lines 157-162 takes
    it: a key and two counts in decimal. *)
Definition csv_row (r : string * Z * Z) : list string :=
  [fst (fst r); Py.str (snd (fst r)); Py.str (snd r)].

Definition column_total (counts : list Z) : Z := fold_right Z.add 0 counts.


(** The key under which each table counts a record, from the record and
    from what the two overhang functions returned for it. *)
Definition right_key (line : AlignedSegment) (o : Z * string * (Z * string)) : Z :=
  fst (fst o).
Definition left_key (line : AlignedSegment) (o : Z * string * (Z * string)) : Z :=
  fst (snd o).
Definition type_key (line : AlignedSegment) (o : Z * string * (Z * string))
  : string :=
  composite (snd (snd o)) (snd (fst o)).
Definition read_len_key (line : AlignedSegment) (o : Z * string * (Z * string))
  : Z :=
  query_length line.
Definition ref_key (line : AlignedSegment) (o : Z * string * (Z * string))
  : option string :=
  reference_name line.

(** Number of records of [lines] that the loop counts under the key
    [k], and number of records that it counts at all. *)
Definition counted_with `{EqDecision K}
    (right_overhang left_overhang :
       AlignmentFile -> AlignedSegment -> list (option Z) -> result (Z * string))
    (bam_in : AlignmentFile)
    (key : AlignedSegment -> Z * string * (Z * string) -> K) (k : K)
    (lines : list AlignedSegment) : nat :=
  length (filter (fun line =>
                    key line <$> observed right_overhang left_overhang bam_in line
                    = Some k) lines).

Definition counted
    (right_overhang left_overhang :
       AlignmentFile -> AlignedSegment -> list (option Z) -> result (Z * string))
    (bam_in : AlignmentFile) (lines : list AlignedSegment) : nat :=
  length (filter (fun line =>
                    is_Some (observed right_overhang left_overhang bam_in line))
                 lines).

(** The table [table] gains one increment at [key line o] for every
    counted record. *)
Definition counts_by `{Countable K}
    (right_overhang left_overhang :
       AlignmentFile -> AlignedSegment -> list (option Z) -> result (Z * string))
    (write_fails : AlignedSegment -> string -> bool)
    (bam_in : AlignmentFile) (prefix : string)
    (table : tables -> gmap K Z)
    (key : AlignedSegment -> Z * string * (Z * string) -> K) : Prop :=
  forall st line o,
    observed right_overhang left_overhang bam_in line = Some o ->
    table (process_record right_overhang left_overhang write_fails bam_in prefix
                          st line)
    = Py.incr (table st) (key line o).

(** The entry of a table that starts empty, after [n] increments. *)
Definition positive_count (n : nat) : option Z :=
  match n with
  | O => None
  | S _ => Some (Z.of_nat n)
  end.

(** Sum of the counts of a table. *)
Definition total `{Countable K} (d : gmap K Z) : Z :=
  map_fold (fun _ v acc => v + acc) 0 d.

(** * Properties *)

(** ** The insertion/deletion filter *)

(** ['D' or 'I'] is ['D']: the filter of line 125 only looks for a 'D'. *)
Lemma or_D_I : Py.or_ "D" "I" = "D".
Proof. reflexivity. Qed.

Lemma passes_indel_filter_D (cigar : string) :
  passes_indel_filter cigar = negb (Py.str_in "D" cigar).
Proof. unfold passes_indel_filter. now rewrite or_D_I. Qed.

Section CountingFacts.

Variable right_overhang :
  AlignmentFile -> AlignedSegment -> list (option Z) -> result (Z * string).
Variable left_overhang :
  AlignmentFile -> AlignedSegment -> list (option Z) -> result (Z * string).
Variable write_fails : AlignedSegment -> string -> bool.
Variable bam_in : AlignmentFile.
Variable prefix : string.

Local Abbreviation try_body' :=
  (try_body right_overhang left_overhang write_fails bam_in prefix).
Local Abbreviation process_record' :=
  (process_record right_overhang left_overhang write_fails bam_in prefix).
Local Abbreviation count_records' :=
  (count_records right_overhang left_overhang write_fails bam_in prefix).
Local Abbreviation observed' := (observed right_overhang left_overhang bam_in).

(** The [try] body, statement by statement. *)
Lemma try_body_unfold (line : AlignedSegment) (pos : list (option Z)) (st : tables) :
  try_body' line pos st =
  match right_overhang bam_in line pos with
  | Raise e => (st, Raise e)
  | Ok (r, rt) =>
      match left_overhang bam_in line pos with
      | Raise e => (st, Raise e)
      | Ok (l, lt) =>
          let st5 := counts_applied st line r l lt rt in
          if write_fails line (prefix +:+ "_" +:+ composite lt rt)
          then (st5, Raise OSError)
          else (set_partitions
                  (fun p => <[composite lt rt :=
                                default [] (p !! composite lt rt) ++ [line]]> p)
                  st5, Ok tt)
      end
  end.
Proof.
  unfold try_body, mbind, call, modify, write_to_bam.
  destruct (right_overhang bam_in line pos) as [[r rt]|e]; [|reflexivity].
  destruct (left_overhang bam_in line pos) as [[l lt]|e]; [|reflexivity].
  cbn. destruct (write_fails line _); reflexivity.
Qed.

(** A record with a deletion never reaches the classifier. *)
Lemma deletion_excluded (st : tables) (line : AlignedSegment) (cigar : string) :
  cigarstring line = Some cigar ->
  Py.str_in "D" cigar = true ->
  process_record' st line = st.
Proof.
  intros Hc HD. unfold process_record.
  rewrite Hc, passes_indel_filter_D, HD. reflexivity.
Qed.

(** What one iteration does, by what the two overhang functions
    return. *)
Lemma process_record_skipped (st : tables) (line : AlignedSegment) :
  observed' line = None -> process_record' st line = st.
Proof.
  unfold observed, process_record.
  destruct (cigarstring line) as [cigar|]; [|reflexivity].
  destruct (passes_indel_filter cigar); [|reflexivity].
  rewrite try_body_unfold.
  destruct (right_overhang bam_in line _) as [[r rt]|e]; [|reflexivity].
  destruct (left_overhang bam_in line _) as [[l lt]|e]; [|reflexivity].
  discriminate.
Qed.

Lemma process_record_observed
    (st : tables) (line : AlignedSegment) (r l : Z) (rt lt : string) :
  observed' line = Some ((r, rt), (l, lt)) ->
  process_record' st line =
  let st5 := counts_applied st line r l lt rt in
  if write_fails line (prefix +:+ "_" +:+ composite lt rt)
  then st5
  else set_partitions
         (fun p => <[composite lt rt :=
                       default [] (p !! composite lt rt) ++ [line]]> p) st5.
Proof.
  unfold observed, process_record.
  destruct (cigarstring line) as [cigar|]; [|discriminate].
  destruct (passes_indel_filter cigar); [|discriminate].
  rewrite try_body_unfold.
  destruct (right_overhang bam_in line _) as [[r' rt']|e]; [|discriminate].
  destruct (left_overhang bam_in line _) as [[l' lt']|e]; [|discriminate].
  intros [= -> -> -> ->]. cbn.
  destruct (write_fails line _); reflexivity.
Qed.

Lemma incr_incremented_at `{Countable K} (d : gmap K Z) (k : K) :
  incremented_at d (Py.incr d k) k.
Proof.
  unfold incremented_at, Py.incr. split.
  - apply lookup_insert_eq.
  - intros k' Hk. now apply lookup_insert_ne.
Qed.

End CountingFacts.

(** ** One iteration of the counting loop *)

Section LoopClaims.

Variable right_overhang :
  AlignmentFile -> AlignedSegment -> list (option Z) -> result (Z * string).
Variable left_overhang :
  AlignmentFile -> AlignedSegment -> list (option Z) -> result (Z * string).
Variable write_fails : AlignedSegment -> string -> bool.
Variable bam_in : AlignmentFile.
Variable prefix : string.

Local Abbreviation process_record' :=
  (process_record right_overhang left_overhang write_fails bam_in prefix).
Local Abbreviation count_records' :=
  (count_records right_overhang left_overhang write_fails bam_in prefix).
Local Abbreviation classified' :=
  (classified right_overhang left_overhang write_fails bam_in prefix).

(** The five increments, read off [counts_applied]. *)
Lemma counts_applied_incremented
    (st st' : tables) (line : AlignedSegment) (r l : Z) (lt rt : string) :
  right_dic st' = right_dic (counts_applied st line r l lt rt) ->
  left_dic st' = left_dic (counts_applied st line r l lt rt) ->
  type_dic st' = type_dic (counts_applied st line r l lt rt) ->
  read_len_dic st' = read_len_dic (counts_applied st line r l lt rt) ->
  refs_read_dic st' = refs_read_dic (counts_applied st line r l lt rt) ->
  incremented_at (right_dic st) (right_dic st') r
  /\ incremented_at (left_dic st) (left_dic st') l
  /\ incremented_at (type_dic st) (type_dic st') (lt +:+ "_" +:+ rt)
  /\ incremented_at (read_len_dic st) (read_len_dic st') (query_length line)
  /\ incremented_at (refs_read_dic st) (refs_read_dic st') (reference_name line).
Proof.
  intros -> -> -> -> ->. cbn.
  repeat split; try apply incr_incremented_at;
    intros k' Hk; unfold Py.incr; now apply lookup_insert_ne.
Qed.

(** A classified record is one that both overhang functions accept and
    whose partition write succeeds. *)
Lemma classified_inv (st : tables) (line : AlignedSegment) :
  classified' st line = true ->
  exists r rt l lt,
    observed right_overhang left_overhang bam_in line = Some ((r, rt), (l, lt))
    /\ right_overhang bam_in line (reference_positions line) = Ok (r, rt)
    /\ left_overhang bam_in line (reference_positions line) = Ok (l, lt)
    /\ write_fails line (prefix +:+ "_" +:+ composite lt rt) = false.
Proof.
  unfold classified, observed.
  destruct (cigarstring line) as [cigar|]; [|discriminate].
  destruct (passes_indel_filter cigar); [|discriminate].
  rewrite try_body_unfold. cbn.
  destruct (right_overhang bam_in line _) as [[r rt]|e]; [|discriminate].
  destruct (left_overhang bam_in line _) as [[l lt]|e]; [|discriminate].
  cbn. destruct (write_fails line _) eqn:Hw; [discriminate|].
  intros _. exists r, rt, l, lt. auto.
Qed.

(** C2. Every alignment record that is successfully classified (both
    overhang functions return and the partition write succeeds) adds
    exactly one to each frequency table, at the right overhang length,
    the left overhang length, the composite type, the read length and
    the reference name of the record, and is written once, to the output
    partition keyed by [left_type + '_' + right_type]; no other key and
    no other partition changes. *)
Theorem classified_record_counted_once (st : tables) (line : AlignedSegment) :
  classified' st line = true ->
  exists right_ right_type left_ left_type,
    right_overhang bam_in line (reference_positions line) = Ok (right_, right_type)
    /\ left_overhang bam_in line (reference_positions line) = Ok (left_, left_type)
    /\ incremented_at (right_dic st) (right_dic (process_record' st line)) right_
    /\ incremented_at (left_dic st) (left_dic (process_record' st line)) left_
    /\ incremented_at (type_dic st) (type_dic (process_record' st line))
                      (left_type +:+ "_" +:+ right_type)
    /\ incremented_at (read_len_dic st) (read_len_dic (process_record' st line))
                      (query_length line)
    /\ incremented_at (refs_read_dic st) (refs_read_dic (process_record' st line))
                      (reference_name line)
    /\ written_to (partitions st) (partitions (process_record' st line))
                  (left_type +:+ "_" +:+ right_type) line.
Proof.
  intros Hc. destruct (classified_inv st line Hc) as (r & rt & l & lt & Ho & Hr & Hl & Hw).
  exists r, rt, l, lt. split; [exact Hr|]. split; [exact Hl|].
  rewrite (process_record_observed _ _ _ _ _ _ _ _ _ _ _ Ho). cbn zeta.
  rewrite Hw.
  destruct (counts_applied_incremented st
              (set_partitions
                 (fun p => <[composite lt rt :=
                               default [] (p !! composite lt rt) ++ [line]]> p)
                 (counts_applied st line r l lt rt))
              line r l lt rt) as (H1 & H2 & H3 & H4 & H5); try reflexivity.
  repeat (split; [assumption|]).
  unfold written_to. cbn. split.
  - apply lookup_insert_eq.
  - intros key' Hk. now apply lookup_insert_ne.
Qed.

(** C3, as amended. When [right_overhang] or [left_overhang] raises for a
    record, the record is skipped without ending the loop and no table
    changes: the state after the record is the state before it, and the
    loop goes on with the records that follow. *)
Theorem classification_failure_skips_record
    (st : tables) (line : AlignedSegment) (rest : list AlignedSegment) :
  classification_raises right_overhang left_overhang bam_in line ->
  process_record' st line = st
  /\ same_counts st (process_record' st line)
  /\ count_records' st (line :: rest) = count_records' st rest.
Proof.
  intros (cigar & Hc & Hf & Hraise).
  assert (Hskip : process_record' st line = st).
  { apply process_record_skipped. unfold observed. rewrite Hc, Hf.
    destruct Hraise as [[e He]|[e He]]; rewrite He.
    - reflexivity.
    - now destruct (right_overhang bam_in line _). }
  split; [exact Hskip|]. split.
  - rewrite Hskip. unfold same_counts. auto.
  - unfold count_records. cbn. fold process_record'. now rewrite Hskip.
Qed.

(** A failed partition write comes after the five increments, and they
    stay. *)
Lemma failed_write_keeps_increments
    (st : tables) (line : AlignedSegment) (r l : Z) (rt lt : string) :
  observed right_overhang left_overhang bam_in line = Some ((r, rt), (l, lt)) ->
  write_fails line (prefix +:+ "_" +:+ composite lt rt) = true ->
  process_record' st line = counts_applied st line r l lt rt.
Proof.
  intros Ho Hw. rewrite (process_record_observed _ _ _ _ _ _ _ _ _ _ _ Ho).
  cbn zeta. now rewrite Hw.
Qed.

(** C1, the code at a record with an insertion.  A record whose CIGAR
    string has an 'I' and no 'D' passes the filter of line 125; when the
    two overhang functions return for it, it is counted in all five
    tables. *)
Theorem insertion_record_is_counted
    (st : tables) (line : AlignedSegment) (cigar : string)
    (r l : Z) (rt lt : string) :
  cigarstring line = Some cigar ->
  Py.str_in "I" cigar = true ->
  Py.str_in "D" cigar = false ->
  right_overhang bam_in line (reference_positions line) = Ok (r, rt) ->
  left_overhang bam_in line (reference_positions line) = Ok (l, lt) ->
  incremented_at (right_dic st) (right_dic (process_record' st line)) r
  /\ incremented_at (left_dic st) (left_dic (process_record' st line)) l
  /\ incremented_at (type_dic st) (type_dic (process_record' st line))
                    (lt +:+ "_" +:+ rt)
  /\ incremented_at (read_len_dic st) (read_len_dic (process_record' st line))
                    (query_length line)
  /\ incremented_at (refs_read_dic st) (refs_read_dic (process_record' st line))
                    (reference_name line).
Proof.
  intros Hc _ HD Hr Hl.
  assert (Ho : observed right_overhang left_overhang bam_in line
               = Some ((r, rt), (l, lt))).
  { unfold observed. now rewrite Hc, passes_indel_filter_D, HD, Hr, Hl. }
  rewrite (process_record_observed _ _ _ _ _ _ _ _ _ _ _ Ho). cbn zeta.
  apply counts_applied_incremented; destruct (write_fails line _); reflexivity.
Qed.

End LoopClaims.

(** The scenario read, classified by the classifier of the
    specification and written without error, is counted once. *)
Lemma classified_record_counted_once_witness :
  let bam := sample_bam [clipped_read] in
  let st' := process_record right_overhang left_overhang never_fails bam "out"
                            empty_tables clipped_read in
  classified right_overhang left_overhang never_fails bam "out"
             empty_tables clipped_read = true
  /\ exists right_ right_type left_ left_type,
      right_overhang bam clipped_read (reference_positions clipped_read)
      = Ok (right_, right_type)
      /\ left_overhang bam clipped_read (reference_positions clipped_read)
         = Ok (left_, left_type)
      /\ incremented_at ∅ (right_dic st') right_
      /\ incremented_at ∅ (left_dic st') left_
      /\ incremented_at ∅ (type_dic st') (left_type +:+ "_" +:+ right_type)
      /\ incremented_at ∅ (read_len_dic st') 20
      /\ incremented_at ∅ (refs_read_dic st') (Some "ref1")
      /\ written_to ∅ (partitions st') (left_type +:+ "_" +:+ right_type)
                    clipped_read.
Proof.
  split; [vm_compute; reflexivity|].
  apply (classified_record_counted_once right_overhang left_overhang never_fails
           (sample_bam [clipped_read]) "out" empty_tables clipped_read).
  vm_compute; reflexivity.
Defined.

(** The skip is not atomic for every exception: for the scenario read
    and a partition write that raises, the [try] body raises and yet the
    right-overhang table has gained an entry. *)
Lemma failed_write_is_not_atomic :
  ~ (forall right_overhang left_overhang write_fails bam_in prefix st line,
        body_raises right_overhang left_overhang write_fails bam_in prefix st line ->
        same_counts st (process_record right_overhang left_overhang write_fails
                                       bam_in prefix st line)).
Proof.
  intros Hatomic.
  specialize (Hatomic right_overhang left_overhang always_fails
                      (sample_bam [clipped_read]) "out" empty_tables clipped_read).
  assert (Hraises : body_raises right_overhang left_overhang always_fails
                      (sample_bam [clipped_read]) "out" empty_tables clipped_read).
  { exists "3S15M2S", OSError. repeat split; vm_compute; reflexivity. }
  destruct (Hatomic Hraises) as (Hright & _).
  assert (Hlook : right_dic (process_record right_overhang left_overhang always_fails
                    (sample_bam [clipped_read]) "out" empty_tables clipped_read)
                  !! 2 = Some 1) by (vm_compute; reflexivity).
  rewrite Hright in Hlook. discriminate Hlook.
Qed.

(** A record whose [right_overhang] raises (a read that is soft-clipped
    over its whole length) leaves the tables as they are. *)
Lemma classification_failure_skips_record_witness :
  let line := {| cigarstring := Some "10S";
                 reference_positions := replicate 10 None;
                 query_length := 10; reference_name := Some "ref1" |} in
  let bam := sample_bam [line; clipped_read] in
  classification_raises right_overhang left_overhang bam line
  /\ process_record right_overhang left_overhang never_fails bam "out"
                    empty_tables line = empty_tables
  /\ same_counts empty_tables
       (process_record right_overhang left_overhang never_fails bam "out"
                       empty_tables line)
  /\ count_records right_overhang left_overhang never_fails bam "out"
                   empty_tables [line; clipped_read]
     = count_records right_overhang left_overhang never_fails bam "out"
                     empty_tables [clipped_read].
Proof.
  intros line bam.
  assert (Hraises : classification_raises right_overhang left_overhang bam line).
  { exists "10S". split; [reflexivity|]. split; [reflexivity|].
    left. exists ValueError. reflexivity. }
  split; [exact Hraises|].
  exact (classification_failure_skips_record right_overhang left_overhang never_fails
           bam "out" empty_tables line [clipped_read] Hraises).
Defined.

(** The read with an insertion is counted. *)
Lemma insertion_record_is_counted_witness :
  let bam := sample_bam [read_with_insertion] in
  let st' := process_record right_overhang left_overhang never_fails bam "out"
                            empty_tables read_with_insertion in
  Py.str_in "I" "5M1I5M" = true
  /\ incremented_at ∅ (right_dic st') 0
  /\ incremented_at ∅ (left_dic st') 0
  /\ incremented_at ∅ (type_dic st') ("indeterminate" +:+ "_" +:+ "indeterminate")
  /\ incremented_at ∅ (read_len_dic st') 11
  /\ incremented_at ∅ (refs_read_dic st') (Some "ref1").
Proof.
  split; [reflexivity|].
  apply (insertion_record_is_counted right_overhang left_overhang never_fails
           (sample_bam [read_with_insertion]) "out" empty_tables
           read_with_insertion "5M1I5M" 0 0 "indeterminate" "indeterminate");
    vm_compute; reflexivity.
Defined.

(** ** Overhang lengths of the classifier *)

Section OverhangLengths.

Context {A : Type} (on : A -> bool).

Lemma leading_off_strip_off (pos : list A) :
  (leading_off on pos + length (strip_off on pos))%nat = length pos.
Proof.
  induction pos as [|p rest IH]; cbn; [reflexivity|].
  destruct (on p); cbn; lia.
Qed.

Lemma strip_off_suffix (pos : list A) :
  exists pre, pos = pre ++ strip_off on pos.
Proof.
  induction pos as [|p rest [pre IH]]; cbn.
  - now exists [].
  - destruct (on p).
    + now exists [].
    + exists (p :: pre). cbn. now rewrite <- IH.
Qed.

Lemma existsb_strip_off (pos : list A) :
  existsb on (strip_off on pos) = existsb on pos.
Proof.
  induction pos as [|p rest IH]; cbn; [reflexivity|].
  destruct (on p) eqn:Hp; cbn; [now rewrite Hp|exact IH].
Qed.

Lemma leading_off_app (a b : list A) :
  existsb on a = true -> leading_off on (a ++ b) = leading_off on a.
Proof.
  induction a as [|p rest IH]; cbn; [discriminate|].
  destruct (on p); cbn; [reflexivity|]. intros H. now rewrite IH.
Qed.

Lemma existsb_rev' (l : list A) : existsb on (rev l) = existsb on l.
Proof.
  induction l as [|p rest IH]; cbn; [reflexivity|].
  rewrite existsb_app, IH. cbn. destruct (on p), (existsb on rest); reflexivity.
Qed.

Lemma strip_off_prefix (pos : list A) :
  exists pre,
    pos = pre ++ strip_off on pos /\ List.filter on pre = [].
Proof.
  induction pos as [|p rest (pre & IH & Hoff)]; cbn.
  - now exists [].
  - destruct (on p) eqn:Hp.
    + now exists [].
    + exists (p :: pre). cbn. rewrite Hp, <- IH. auto.
Qed.

(** An array splits into its left overhang, its aligned span and its
    right overhang; no base of the overhangs lies on the reference. *)
Lemma overhang_decomposition (pos : list A) :
  exists pre post,
    pos = pre ++ aligned_span on pos ++ post
    /\ List.filter on pre = [] /\ List.filter on post = [].
Proof.
  destruct (strip_off_prefix pos) as (pre & Hpre & Hoff).
  destruct (strip_off_prefix (rev (strip_off on pos))) as (post & Hpost & Hoff').
  exists pre, (rev post). unfold aligned_span. split; [|split].
  - rewrite <- rev_app_distr, <- Hpost, rev_involutive. exact Hpre.
  - exact Hoff.
  - destruct (List.filter on (rev post)) as [|x l] eqn:Hf; [reflexivity|].
    assert (Hx : In x (List.filter on (rev post))) by (rewrite Hf; now left).
    apply filter_In in Hx. destruct Hx as [Hx Hon].
    assert (Hx' : In x (List.filter on post)).
    { apply filter_In. split; [|exact Hon]. exact (proj2 (in_rev post x) Hx). }
    rewrite Hoff' in Hx'. destruct Hx'.
Qed.

Lemma filter_without_gap (l : list A) :
  existsb (fun p => negb (on p)) l = false -> List.filter on l = l.
Proof.
  induction l as [|p l IH]; cbn; [reflexivity|].
  destruct (on p); cbn; [|discriminate]. intros Hgap. f_equal. exact (IH Hgap).
Qed.

(** Without internal gap, the aligned span is made of the bases that
    lie on the reference: its length is the number of matched bases. *)
Lemma span_counts_matched_bases (pos : list A) :
  existsb (fun p => negb (on p)) (aligned_span on pos) = false ->
  length (aligned_span on pos) = length (List.filter on pos).
Proof.
  intros Hgap.
  destruct (overhang_decomposition pos) as (pre & post & Hpos & Hpre & Hpost).
  rewrite Hpos at 2. rewrite !List.filter_app, Hpre, Hpost, app_nil_r. cbn.
  now rewrite (filter_without_gap _ Hgap).
Qed.

(** Stripping the left end does not change the right overhang, as long
    as some base lies on the reference. *)
Lemma trailing_off_strip_off (pos : list A) :
  existsb on pos = true ->
  trailing_off on (strip_off on pos) = trailing_off on pos.
Proof.
  intros Hex. unfold trailing_off.
  destruct (strip_off_suffix pos) as [pre Hpre].
  rewrite Hpre at 2. rewrite rev_app_distr.
  symmetry. apply leading_off_app.
  now rewrite existsb_rev', existsb_strip_off.
Qed.

(** The two overhangs and the aligned span partition the array. *)
Lemma overhangs_and_span (pos : list A) :
  existsb on pos = true ->
  (leading_off on pos + trailing_off on pos + length (aligned_span on pos))%nat
  = length pos.
Proof.
  intros Hex. unfold aligned_span. rewrite length_rev.
  pose proof (leading_off_strip_off pos) as H1.
  pose proof (leading_off_strip_off (rev (strip_off on pos))) as H2.
  rewrite length_rev in H2.
  pose proof (trailing_off_strip_off pos Hex) as H3.
  unfold trailing_off in *. lia.
Qed.

End OverhangLengths.

(** C6. For every record that the classifier accepts on both ends, the
    left overhang length plus the right overhang length plus the matched
    length is the query length of the record, and both overhang lengths
    are non-negative integers.  The position array has one entry per
    query base, as pysam returns it with [full_length=True]. *)
Theorem length_conservation
    (bam : AlignmentFile) (line : AlignedSegment)
    (left_ right_ : Z) (left_type right_type : string) :
  Z.of_nat (length (reference_positions line)) = query_length line ->
  left_overhang bam line (reference_positions line) = Ok (left_, left_type) ->
  right_overhang bam line (reference_positions line) = Ok (right_, right_type) ->
  exists matched,
    matched_length bam line = Ok matched
    /\ left_ + right_ + matched = query_length line
    /\ 0 <= left_ /\ 0 <= right_ /\ 0 <= matched.
Proof.
  unfold left_overhang, right_overhang, overhang, matched_length.
  intros Hlen Hl Hr.
  destruct (get_reference_length bam (reference_name line)) as [len|e];
    cbn in *; [|discriminate].
  destruct (existsb (on_reference len) (reference_positions line)) eqn:Hex;
    [|discriminate].
  injection Hl as <- _. injection Hr as <- _.
  eexists. split; [reflexivity|].
  pose proof (overhangs_and_span (on_reference len) (reference_positions line) Hex).
  lia.
Qed.

(** The scenario of section 8: 3 + 2 + 15 = 20. *)
Lemma length_conservation_witness :
  let bam := sample_bam [clipped_read] in
  left_overhang bam clipped_read (reference_positions clipped_read)
  = Ok (3, "5'-overhang")
  /\ right_overhang bam clipped_read (reference_positions clipped_read)
     = Ok (2, "3'-overhang")
  /\ exists matched,
      matched_length bam clipped_read = Ok matched
      /\ 3 + 2 + matched = 20
      /\ 0 <= 3 /\ 0 <= 2 /\ 0 <= matched.
Proof.
  split; [reflexivity|]. split; [reflexivity|].
  apply (length_conservation (sample_bam [clipped_read]) clipped_read
           3 2 "5'-overhang" "3'-overhang"); reflexivity.
Defined.

(** ** The histogram: reading the CSV and normalising *)

Lemma qsum_snoc (l : list Q) (x : Q) :
  Qeq (Py.qsum (l ++ [x])) (Qplus (Py.qsum l) x).
Proof.
  unfold Py.qsum. induction l as [|y l IH]; cbn [fold_right app].
  - ring.
  - rewrite IH. ring.
Qed.

Lemma read_row_consistent (s s' : summary) (line : list string) :
  consistent s -> read_row s line = Ok s' -> consistent s'.
Proof.
  intros [Hl Hr Hlt Hrt]. unfold read_row.
  destruct (Py.index line 0) as [k|]; cbn; [|discriminate].
  destruct (Py.index line 1) as [f1|]; cbn; [|discriminate].
  destruct (Py.int f1) as [l|]; cbn; [|discriminate].
  destruct (Py.index line 2) as [f2|]; cbn; [|discriminate].
  destruct (Py.int f2) as [r|]; cbn; [|discriminate].
  intros [= <-]. constructor; cbn.
  - rewrite !length_app. cbn. lia.
  - rewrite !length_app. cbn. lia.
  - rewrite qsum_snoc, Hlt, inject_Z_plus. reflexivity.
  - rewrite qsum_snoc, Hrt, inject_Z_plus. reflexivity.
Qed.

Lemma read_rows_consistent (rows : csv) :
  forall s s', consistent s -> read_rows s rows = Ok s' -> consistent s'.
Proof.
  induction rows as [|line rest IH]; cbn; intros s s' Hs.
  - now intros [= <-].
  - destruct (read_row s line) as [s1|] eqn:H1; cbn; [|discriminate].
    apply IH. eapply read_row_consistent; eauto.
Qed.

Lemma read_summary_consistent (file : csv) (s : summary) :
  read_summary file = Ok s -> consistent s.
Proof.
  destruct file as [|head rows]; cbn; [discriminate|].
  apply read_rows_consistent. constructor; cbn; reflexivity.
Qed.

(** The in-place loop over [range(len(keys))], started at index [i] with
    [k] indices to go: every density from [i] on is replaced by its
    percentage. *)
Lemma normalise_loop_from (k : nat) :
  forall (i : nat) (s : summary),
    (i + k)%nat = length (keys s) ->
    length (left_dens s) = length (keys s) ->
    length (right_dens s) = length (keys s) ->
    left_tot s <> 0 -> right_tot s <> 0 ->
    exists s',
      normalise_loop s (seq i k) = Ok s'
      /\ keys s' = keys s
      /\ left_dens s'
         = take i (left_dens s) ++ map (percent_of (left_tot s)) (drop i (left_dens s))
      /\ right_dens s'
         = take i (right_dens s) ++ map (percent_of (right_tot s)) (drop i (right_dens s)).
Proof.
  induction k as [|k IH]; intros i s Hik Hl Hr Hlt Hrt; cbn.
  - exists s. split; [reflexivity|]. split; [reflexivity|].
    rewrite !drop_ge, !take_ge by lia. now rewrite !app_nil_r.
  - unfold normalise_at, Py.index, percent.
    assert (Hil : (i < length (left_dens s))%nat) by lia.
    assert (Hir : (i < length (right_dens s))%nat) by lia.
    destruct (lookup_lt_is_Some_2 _ _ Hil) as [x Hx].
    destruct (lookup_lt_is_Some_2 _ _ Hir) as [y Hy].
    rewrite Hx, Hy. cbn.
    destruct (Z.eqb_spec (left_tot s) 0) as [|_]; [contradiction|].
    destruct (Z.eqb_spec (right_tot s) 0) as [|_]; [contradiction|]. cbn.
    edestruct (IH (S i)) as (s' & Hloop & Hk & Hld & Hrd);
      [| | | | |exists s'; split; [exact Hloop|]]; cbn;
      rewrite ?length_insert; try assumption; try lia.
    cbn in Hk, Hld, Hrd. split; [exact Hk|].
    rewrite Hld, Hrd.
    rewrite (take_S_r _ i _ (list_lookup_insert_eq _ _ _ Hil)).
    rewrite (take_S_r _ i _ (list_lookup_insert_eq _ _ _ Hir)).
    rewrite !take_insert_ge, !drop_insert_lt by lia.
    rewrite (drop_S _ _ _ Hx), (drop_S _ _ _ Hy). cbn.
    rewrite <- !app_assoc. split; reflexivity.
Qed.

Lemma qsum_percent (tot : Z) (l : list Q) :
  tot <> 0 ->
  Qeq (Py.qsum (map (percent_of tot) l))
      (Qdiv (Qmult (inject_Z 100) (Py.qsum l)) (inject_Z tot)).
Proof.
  intros Htot.
  assert (Hq : ~ Qeq (inject_Z tot) (0 # 1)).
  { intros H. apply Htot. unfold Qeq in H. cbn in H. lia. }
  unfold Py.qsum. induction l as [|x l IH]; cbn [fold_right map].
  - field. exact Hq.
  - rewrite IH. unfold percent_of. field. exact Hq.
Qed.

Lemma normalise_spec (s : summary) :
  consistent s -> left_tot s <> 0 -> right_tot s <> 0 ->
  exists s',
    normalise s = Ok s'
    /\ keys s' = keys s
    /\ left_dens s' = map (percent_of (left_tot s)) (left_dens s)
    /\ right_dens s' = map (percent_of (right_tot s)) (right_dens s).
Proof.
  intros [Hl Hr _ _] Hlt Hrt. unfold normalise.
  destruct (normalise_loop_from (length (keys s)) 0 s) as (s' & H & Hk & Hld & Hrd);
    try assumption; try reflexivity.
  exists s'. rewrite Hld, Hrd. cbn. rewrite !drop_0. auto.
Qed.

Lemma percentages_total (tot : Z) (l : list Q) :
  tot <> 0 -> Qeq (Py.qsum l) (inject_Z tot) ->
  Qeq (Py.qsum (map (percent_of tot) l)) (inject_Z 100).
Proof.
  intros Htot Hsum. rewrite (qsum_percent tot l Htot), Hsum.
  field. intros H. apply Htot. unfold Qeq in H. cbn in H. lia.
Qed.

(** C5. For the overhang tables read back from their CSV, when neither
    table is empty (each total, the sum of the counts of its column, is
    not 0), the normalisation succeeds, replaces every count [c] by
    [100 * c / total], and the percentages of each table add up to
    exactly 100 in rational arithmetic. *)
Theorem percentages_sum_to_100 (file : csv) (s : summary) :
  read_summary file = Ok s ->
  left_tot s <> 0 -> right_tot s <> 0 ->
  exists s',
    normalise s = Ok s'
    /\ keys s' = keys s
    /\ Qeq (inject_Z (left_tot s)) (Py.qsum (left_dens s))
    /\ Qeq (inject_Z (right_tot s)) (Py.qsum (right_dens s))
    /\ left_dens s'
       = map (fun c => Qdiv (Qmult (inject_Z 100) c) (inject_Z (left_tot s)))
             (left_dens s)
    /\ right_dens s'
       = map (fun c => Qdiv (Qmult (inject_Z 100) c) (inject_Z (right_tot s)))
             (right_dens s)
    /\ Qeq (Py.qsum (left_dens s')) (inject_Z 100)
    /\ Qeq (Py.qsum (right_dens s')) (inject_Z 100).
Proof.
  intros Hread Hlt Hrt.
  pose proof (read_summary_consistent file s Hread) as Hs.
  destruct (normalise_spec s Hs Hlt Hrt) as (s' & Hn & Hk & Hld & Hrd).
  destruct Hs as [_ _ Hsl Hsr].
  exists s'. split; [exact Hn|]. split; [exact Hk|].
  split; [now symmetry|]. split; [now symmetry|].
  split; [exact Hld|]. split; [exact Hrd|].
  rewrite Hld, Hrd. split; now apply percentages_total.
Qed.

(** Two keys, with counts 3 and 1 on one side and 1 and 3 on the other. *)
Lemma percentages_sum_to_100_witness :
  let file := [["OH"; "Left"; "Right"]; ["0"; "3"; "1"]; ["2"; "1"; "3"]] in
  let s := {| keys := ["0"; "2"];
              left_dens := [inject_Z 3; inject_Z 1];
              right_dens := [inject_Z 1; inject_Z 3];
              left_tot := 4; right_tot := 4 |} in
  read_summary file = Ok s
  /\ exists s',
      normalise s = Ok s'
      /\ keys s' = keys s
      /\ Qeq (inject_Z (left_tot s)) (Py.qsum (left_dens s))
      /\ Qeq (inject_Z (right_tot s)) (Py.qsum (right_dens s))
      /\ left_dens s'
         = map (fun c => Qdiv (Qmult (inject_Z 100) c) (inject_Z (left_tot s)))
               (left_dens s)
      /\ right_dens s'
         = map (fun c => Qdiv (Qmult (inject_Z 100) c) (inject_Z (right_tot s)))
               (right_dens s)
      /\ Qeq (Py.qsum (left_dens s')) (inject_Z 100)
      /\ Qeq (Py.qsum (right_dens s')) (inject_Z 100).
Proof.
  intros file s. split; [reflexivity|].
  apply (percentages_sum_to_100 file s); [reflexivity | cbn; lia | cbn; lia].
Defined.

(** A total of 0 with a row to normalise ends the script with a
    [ZeroDivisionError]: the two hypotheses on the totals are needed. *)
Lemma zero_total_raises :
  histograms [["OH"; "Left"; "Right"]; ["0"; "1"; "0"]] = Raise ZeroDivisionError.
Proof. reflexivity. Qed.

(** ** The histogram of an empty table *)

(** C4. When the overhang tables are empty, the overhang CSV holds its
    header row only, the normalisation loop runs over no key, so that no
    division takes place although both totals are 0, and the script
    prints a no-data histogram for each side instead of raising. *)
Theorem empty_table_histogram (st : tables) :
  right_dic st = ∅ -> left_dic st = ∅ ->
  overhang_csv (report_of st) = [["OH"; "Left"; "Right"]]
  /\ (exists s, read_summary (overhang_csv (report_of st)) = Ok s
                /\ left_tot s = 0 /\ right_tot s = 0 /\ normalise s = Ok s)
  /\ histogram_lines (report_of st)
     = Ok ["Left Handside Overhang Histogram"; "no data";
           "Right Handside Overhang Histogram"; "no data"].
Proof.
  intros Hr Hl.
  assert (Hcsv : overhang_csv (report_of st) = [["OH"; "Left"; "Right"]]).
  { unfold report_of, make_csv. cbn. rewrite Hr, Hl. reflexivity. }
  split; [exact Hcsv|]. split.
  - rewrite Hcsv. eexists. repeat split; reflexivity.
  - unfold report_of in *. cbn in *. rewrite Hcsv. reflexivity.
Qed.

(** An alignment file without records. *)
Lemma empty_table_histogram_witness :
  let st := count_overhangs right_overhang left_overhang never_fails
                            (sample_bam []) "out" in
  (right_dic st = ∅ /\ left_dic st = ∅)
  /\ overhang_csv (report_of st) = [["OH"; "Left"; "Right"]]
  /\ (exists s, read_summary (overhang_csv (report_of st)) = Ok s
                /\ left_tot s = 0 /\ right_tot s = 0 /\ normalise s = Ok s)
  /\ histogram_lines (report_of st)
     = Ok ["Left Handside Overhang Histogram"; "no data";
           "Right Handside Overhang Histogram"; "no data"].
Proof.
  intros st. split; [split; reflexivity|].
  apply (empty_table_histogram st); reflexivity.
Defined.

(** ** The aligner command *)

Section FrontClaims.

Variable check_dir : string -> string.
Variable splitext_root : string -> string.
Variable path_join : string -> string -> string.
Variable basename : string -> string.
Variable replace_ext : string -> string -> string.
Variable make_unique : string -> string.
Variable mini_maxi : string -> Z * Z.

Local Abbreviation setup' :=
  (setup check_dir splitext_root path_join replace_ext make_unique mini_maxi).
Local Abbreviation setup_trace' :=
  (setup_trace check_dir splitext_root path_join basename replace_ext
               make_unique mini_maxi).
Local Abbreviation reads_after_unique' := (reads_after_unique make_unique).

Lemma setup_fields (a : args.t) :
  v_ref (setup' a) = args.reference a
  /\ v_reads (setup' a) = reads_after_unique' a
  /\ v_ref_base (setup' a) = splitext_root (args.reference a)
  /\ v_minimum (setup' a) = fst (mini_maxi (reads_after_unique' a))
  /\ v_maximum (setup' a) = snd (mini_maxi (reads_after_unique' a))
  /\ v_min_score (setup' a)
     = scaled_min_score (args.min_score a) (fst (mini_maxi (reads_after_unique' a)))
  /\ v_command (setup' a)
     = bowtie2_command (v_ref_base (setup' a)) (v_reads (setup' a))
                       (v_maximum (setup' a)) (v_min_score (setup' a))
                       (v_sam_file (setup' a)).
Proof.
  unfold setup.
  destruct (mini_maxi (reads_after_unique' a)) as [minimum maximum].
  cbn. repeat split; reflexivity.
Qed.

(** C7. The aligner is started with seed length 10 ([-L 10]), local
    alignment ([--local]), reverse-strand-only matching ([--nofw]),
    match bonus 3 ([--ma 3]), both mismatch penalties equal to the
    longest read length ([--mp max,max]) and a constant minimum score
    ([--score-min L,s,0]) where [s] is 3 times the shortest read length
    when [min_score] has its default -1, and 3 times [min_score]
    otherwise.  The two lengths are those of the file that [reads]
    names, the reads file of the command line unless the make-unique
    flag is set. *)
Theorem aligner_parameters (a : args.t) :
  v_command (setup' a)
  = ["bowtie2"; "-x"; splitext_root (args.reference a);
     "-U"; v_reads (setup' a); "-f"; "-N"; "0"; "-L"; "10";
     "--no-1mm-upfront"; "--nofw"; "--local"; "--ma"; "3";
     "--mp"; Py.str (v_maximum (setup' a)) +:+ "," +:+ Py.str (v_maximum (setup' a));
     "--score-min"; "L," +:+ Py.str (v_min_score (setup' a)) +:+ ",0";
     "-S"; v_sam_file (setup' a)]
  /\ v_minimum (setup' a) = fst (mini_maxi (v_reads (setup' a)))
  /\ v_maximum (setup' a) = snd (mini_maxi (v_reads (setup' a)))
  /\ (args.min_score a = -1 -> v_min_score (setup' a) = 3 * v_minimum (setup' a))
  /\ (args.min_score a <> -1 -> v_min_score (setup' a) = 3 * args.min_score a)
  /\ (args.make_unique a = false -> v_reads (setup' a) = args.reads a).
Proof.
  destruct (setup_fields a) as (_ & Hreads & Hbase & Hmin & Hmax & Hscore & Hcmd).
  split; [rewrite Hcmd, Hbase; reflexivity|].
  rewrite Hreads, Hmin, Hmax, Hscore.
  split; [reflexivity|]. split; [reflexivity|]. split; [|split].
  - intros Heq. now rewrite Heq.
  - intros Hne. unfold scaled_min_score.
    destruct (Z.eqb_spec (args.min_score a) (-1)); [contradiction|reflexivity].
  - intros Hflag. unfold reads_after_unique. now rewrite Hflag.
Qed.

(** A [min_score] given as -1 on the command line cannot be told from
    the default. *)
Lemma explicit_default_min_score (minimum : Z) :
  scaled_min_score (-1) minimum = 3 * minimum.
Proof. reflexivity. Qed.

(** ** The make-unique flag *)

(** C9. With the make-unique flag set, [reads] is first assigned the
    uniquified reads file and then reassigned the uniquified reference
    file; the read lengths are taken from the uniquified reference file
    and it is the [-U] argument of the aligner, while [ref] keeps the
    path given on the command line. *)
Theorem unique_flag_replaces_reads (a : args.t) :
  args.make_unique a = true ->
  assign_reads_85 make_unique (args.reference a) (args.reads a)
  = make_unique (args.reads a)
  /\ reads_after_unique' a
     = assign_reads_86 make_unique (args.reference a)
         (assign_reads_85 make_unique (args.reference a) (args.reads a))
  /\ v_reads (setup' a) = make_unique (args.reference a)
  /\ v_ref (setup' a) = args.reference a
  /\ (v_minimum (setup' a), v_maximum (setup' a))
     = mini_maxi (make_unique (args.reference a))
  /\ v_command (setup' a) !! 3%nat = Some "-U"
  /\ v_command (setup' a) !! 4%nat = Some (make_unique (args.reference a))
  /\ exists before after,
      setup_trace' a
      = before
        ++ [ev_make_unique (args.reads a); ev_make_unique (args.reference a)]
        ++ after
      /\ In (ev_mini_maxi (make_unique (args.reference a))) after
      /\ In (ev_run (v_command (setup' a))) after.
Proof.
  intros Hflag.
  destruct (setup_fields a) as (Href & Hreads & _ & Hmin & Hmax & _ & Hcmd).
  assert (Hafter : reads_after_unique' a = make_unique (args.reference a)).
  { unfold reads_after_unique. now rewrite Hflag. }
  split; [reflexivity|]. split; [exact Hafter|].
  rewrite Hafter in *. split; [exact Hreads|]. split; [exact Href|].
  split; [rewrite Hmin, Hmax; now destruct (mini_maxi _)|].
  split; [now rewrite Hcmd|]. split; [rewrite Hcmd, Hreads; reflexivity|].
  unfold setup_trace. fold (setup' a). rewrite Hflag, Hreads.
  eexists (_ :: _), _. split; [reflexivity|].
  cbn. auto 10.
Qed.

End FrontClaims.

(** The default [min_score] with reads of 18 to 30 bases: the minimum
    score is 54. *)
Lemma aligner_parameters_witness :
  args.min_score (sample_args (-1) false) = -1
  /\ v_min_score (sample_setup (sample_args (-1) false)) = 3 * 18
  /\ args.min_score (sample_args 12 false) <> -1
  /\ v_min_score (sample_setup (sample_args 12 false)) = 3 * 12.
Proof.
  split; [reflexivity|]. split.
  - apply (proj1 (proj2 (proj2 (proj2
      (aligner_parameters id sample_splitext sample_join sample_replace_ext
         sample_unique sample_mini_maxi (sample_args (-1) false)))))).
    reflexivity.
  - assert (H : args.min_score (sample_args 12 false) <> -1) by (cbn; lia).
    split; [exact H|].
    exact (proj1 (proj2 (proj2 (proj2 (proj2
      (aligner_parameters id sample_splitext sample_join sample_replace_ext
         sample_unique sample_mini_maxi (sample_args 12 false)))))) H).
Defined.

(** With the flag set, the aligner reads [ref.fa.unique]. *)
Lemma unique_flag_replaces_reads_witness :
  args.make_unique (sample_args (-1) true) = true
  /\ v_reads (sample_setup (sample_args (-1) true)) = "ref.fa.unique"
  /\ v_command (sample_setup (sample_args (-1) true)) !! 4%nat
     = Some "ref.fa.unique".
Proof.
  split; [reflexivity|].
  destruct (unique_flag_replaces_reads id sample_splitext sample_join
              (fun p => p) sample_replace_ext sample_unique sample_mini_maxi
              (sample_args (-1) true) eq_refl)
    as (_ & _ & Hreads & _ & _ & _ & Hu & _).
  split; [exact Hreads | exact Hu].
Defined.

(** ** The exit status of the aligner *)

(** C8. The [CompletedProcess] that [run] returns for the aligner, and
    with it the exit status, is bound to [bowtie] and never read: two
    runs that differ only in what [run] returns leave the same tables,
    the same CSV files and the same histograms. *)
Theorem exit_status_ignored
    (check_dir splitext_root : string -> string)
    (path_join replace_ext : string -> string -> string)
    (make_unique : string -> string) (mini_maxi : string -> Z * Z)
    (right_overhang left_overhang :
       AlignmentFile -> AlignedSegment -> list (option Z) -> result (Z * string))
    (write_fails : AlignedSegment -> string -> bool)
    (sam_to_bam : string -> string) (alignment_file : string -> AlignmentFile)
    (run1 run2 : list string -> CompletedProcess) (a : args.t) :
  main check_dir splitext_root path_join replace_ext make_unique mini_maxi
       right_overhang left_overhang write_fails sam_to_bam alignment_file run1 a
  = main check_dir splitext_root path_join replace_ext make_unique mini_maxi
         right_overhang left_overhang write_fails sam_to_bam alignment_file run2 a.
Proof. reflexivity. Qed.

(** ** The tables after the loop *)

Lemma init_refs_lookup (names : list string) :
  forall (st : tables) (name : string),
    refs_read_dic (init_refs names st) !! Some name
    = if decide (name ∈ names) then Some 0 else refs_read_dic st !! Some name.
Proof.
  unfold init_refs.
  induction names as [|n names IH]; intros st name; cbn [fold_left].
  - rewrite decide_False by apply not_elem_of_nil. reflexivity.
  - rewrite IH. cbn.
    destruct (decide (name ∈ names)) as [Hin|Hnin].
    + rewrite decide_True by (now apply elem_of_cons; right). reflexivity.
    + destruct (decide (name = n)) as [->|Hne].
      * rewrite decide_True by (now apply elem_of_cons; left).
        apply lookup_insert_eq.
      * rewrite decide_False
          by (intros [?|?]%elem_of_cons; contradiction).
        apply lookup_insert_ne. congruence.
Qed.

Lemma init_refs_other (names : list string) :
  forall st : tables,
    right_dic (init_refs names st) = right_dic st
    /\ left_dic (init_refs names st) = left_dic st
    /\ type_dic (init_refs names st) = type_dic st
    /\ read_len_dic (init_refs names st) = read_len_dic st
    /\ partitions (init_refs names st) = partitions st.
Proof.
  unfold init_refs.
  induction names as [|n names IH]; intros st; cbn [fold_left].
  - auto.
  - destruct (IH (set_refs_read_dic (fun d => <[Some n := 0]> d) st))
      as (H1 & H2 & H3 & H4 & H5).
    rewrite H1, H2, H3, H4, H5. auto.
Qed.

Section LoopFacts.

Variable right_overhang :
  AlignmentFile -> AlignedSegment -> list (option Z) -> result (Z * string).
Variable left_overhang :
  AlignmentFile -> AlignedSegment -> list (option Z) -> result (Z * string).
Variable write_fails : AlignedSegment -> string -> bool.
Variable bam_in : AlignmentFile.
Variable prefix : string.

Local Abbreviation process_record' :=
  (process_record right_overhang left_overhang write_fails bam_in prefix).
Local Abbreviation count_records' :=
  (count_records right_overhang left_overhang write_fails bam_in prefix).
Local Abbreviation observed' := (observed right_overhang left_overhang bam_in).
Local Abbreviation hits' := (hits right_overhang left_overhang bam_in).

(** The five dictionaries after one iteration. *)
Lemma process_record_counts (st : tables) (line : AlignedSegment) :
  match observed' line with
  | None => process_record' st line = st
  | Some ((r, rt), (l, lt)) =>
      right_dic (process_record' st line) = Py.incr (right_dic st) r
      /\ left_dic (process_record' st line) = Py.incr (left_dic st) l
      /\ type_dic (process_record' st line)
         = Py.incr (type_dic st) (composite lt rt)
      /\ read_len_dic (process_record' st line)
         = Py.incr (read_len_dic st) (query_length line)
      /\ refs_read_dic (process_record' st line)
         = Py.incr (refs_read_dic st) (reference_name line)
  end.
Proof.
  destruct (observed' line) as [[[r rt] [l lt]]|] eqn:Ho.
  - rewrite (process_record_observed _ _ _ _ _ _ _ _ _ _ _ Ho). cbn zeta.
    destruct (write_fails line _); cbn; auto.
  - now apply process_record_skipped.
Qed.

(** A table that gains, for every counted record, one increment at a key
    taken from the record holds only keys that it held before or that
    were seen at a counted record. *)
Lemma keys_observed `{Countable K}
    (table : tables -> gmap K Z)
    (key : AlignedSegment -> Z * string * (Z * string) -> K) :
  (forall st line o,
      observed' line = Some o ->
      table (process_record' st line) = Py.incr (table st) (key line o)) ->
  forall (lines : list AlignedSegment) (st : tables) (k : K),
    is_Some (table (count_records' st lines) !! k) ->
    is_Some (table st !! k)
    \/ exists line o, In line lines /\ observed' line = Some o /\ key line o = k.
Proof.
  intros Hstep. induction lines as [|line rest IH]; intros st k; cbn.
  - now left.
  - intros Hk. destruct (IH _ _ Hk) as [Hold|(line' & o & Hin & Ho & Hkey)].
    + destruct (observed' line) as [o|] eqn:Ho.
      * rewrite (Hstep st line o Ho) in Hold. unfold Py.incr in Hold.
        destruct (decide (key line o = k)) as [Heq|Hne].
        -- right. exists line, o. auto.
        -- left. now rewrite lookup_insert_ne in Hold.
      * left. now rewrite (process_record_skipped _ _ _ _ _ _ _ Ho) in Hold.
    + right. exists line', o. auto.
Qed.

(** The reference-hit entry of a name that is in the table grows by the
    number of records counted for that name. *)
Lemma refs_read_dic_hits (name : option string) :
  forall (lines : list AlignedSegment) (st : tables) (c : Z),
    refs_read_dic st !! name = Some c ->
    refs_read_dic (count_records' st lines) !! name
    = Some (c + Z.of_nat (hits' name lines)).
Proof.
  unfold hits.
  induction lines as [|line rest IH]; intros st c Hc; cbn [fold_left count_records].
  - cbn. rewrite Hc. f_equal. lia.
  - unfold count_records in *. cbn [fold_left].
    pose proof (process_record_counts st line) as Hstep.
    rewrite filter_cons.
    destruct (observed' line) as [[[r rt] [l lt]]|] eqn:Ho.
    + destruct Hstep as (_ & _ & _ & _ & Hrefs).
      destruct (decide (reference_name line = name)) as [Heq|Hne].
      * rewrite decide_True by (split; [eauto|assumption]).
        rewrite (IH _ (c + 1)).
        -- f_equal. cbn [length]. lia.
        -- rewrite Hrefs, <- Heq. unfold Py.incr, Py.get0.
           rewrite lookup_insert_eq. rewrite Heq, Hc. reflexivity.
      * rewrite decide_False by (intros [_ ?]; contradiction).
        apply IH. rewrite Hrefs. unfold Py.incr.
        now rewrite lookup_insert_ne.
    + rewrite decide_False by (intros [[? Hs] _]; discriminate Hs).
      apply IH. now rewrite Hstep.
Qed.

End LoopFacts.

Section TableClaims.

Variable right_overhang :
  AlignmentFile -> AlignedSegment -> list (option Z) -> result (Z * string).
Variable left_overhang :
  AlignmentFile -> AlignedSegment -> list (option Z) -> result (Z * string).
Variable write_fails : AlignedSegment -> string -> bool.
Variable bam_in : AlignmentFile.
Variable prefix : string.

Local Abbreviation count_overhangs' :=
  (count_overhangs right_overhang left_overhang write_fails bam_in prefix).
Local Abbreviation observed' := (observed right_overhang left_overhang bam_in).
Local Abbreviation hits' := (hits right_overhang left_overhang bam_in).

Lemma ref_hits_row (st : tables) (name : option string) (c : Z) :
  refs_read_dic st !! name = Some c ->
  In [ref_str name; Py.str c] (ref_hits_csv (report_of st)).
Proof.
  intros Hc. unfold report_of, make_type_csv. cbn. right.
  apply (in_map (fun kv : option string * Z => [ref_str (fst kv); Py.str (snd kv)])
                _ (name, c)).
  apply list_elem_of_In. now apply elem_of_map_to_list.
Qed.

(** C10. Before the first record is processed the reference-hit table
    holds count 0 for every reference name of the header and the other
    tables are empty.  After the loop the entry of each reference name is
    the number of records counted for it, 0 included, and the
    reference-hits CSV has a row for it, the only one with its key;
    every key of the other tables was observed at a record that the loop
    counted. *)
Theorem reference_hits_initialised :
  let st0 := init_refs (references bam_in) empty_tables in
  let st := count_overhangs' in
  (forall name, In name (references bam_in) ->
                refs_read_dic st0 !! Some name = Some 0)
  /\ (right_dic st0 = ∅ /\ left_dic st0 = ∅ /\ type_dic st0 = ∅
      /\ read_len_dic st0 = ∅)
  /\ (forall name, In name (references bam_in) ->
        let c := Z.of_nat (hits' (Some name) (segments bam_in)) in
        refs_read_dic st !! Some name = Some c
        /\ In [name; Py.str c] (ref_hits_csv (report_of st))
        /\ (forall c', In (Some name, c') (map_to_list (refs_read_dic st)) -> c' = c))
  /\ (forall k, is_Some (right_dic st !! k) ->
        exists line rt l, In line (segments bam_in)
                          /\ observed' line = Some ((k, rt), l))
  /\ (forall k, is_Some (left_dic st !! k) ->
        exists line r lt, In line (segments bam_in)
                          /\ observed' line = Some (r, (k, lt)))
  /\ (forall k, is_Some (type_dic st !! k) ->
        exists line r rt l lt, In line (segments bam_in)
                               /\ observed' line = Some ((r, rt), (l, lt))
                               /\ k = lt +:+ "_" +:+ rt)
  /\ (forall k, is_Some (read_len_dic st !! k) ->
        exists line o, In line (segments bam_in)
                       /\ observed' line = Some o /\ k = query_length line).
Proof.
  intros st0 st.
  assert (Hinit : forall name, In name (references bam_in) ->
                               refs_read_dic st0 !! Some name = Some 0).
  { intros name Hin. unfold st0. rewrite init_refs_lookup.
    rewrite decide_True by (now apply list_elem_of_In). reflexivity. }
  destruct (init_refs_other (references bam_in) empty_tables)
    as (Hr0 & Hl0 & Ht0 & Hq0 & _). fold st0 in Hr0, Hl0, Ht0, Hq0.
  cbn in Hr0, Hl0, Ht0, Hq0.
  split; [exact Hinit|]. split; [auto|]. split; [|repeat split].
  - intros name Hin c.
    assert (Hc : refs_read_dic st !! Some name = Some c).
    { unfold st, count_overhangs. fold st0.
      rewrite (refs_read_dic_hits _ _ _ _ _ _ _ _ 0 (Hinit name Hin)).
      reflexivity. }
    split; [exact Hc|]. split.
    + exact (ref_hits_row st (Some name) c Hc).
    + intros c' Hc'. apply list_elem_of_In, elem_of_map_to_list in Hc'.
      congruence.
  - intros k Hk.
    destruct (keys_observed right_overhang left_overhang write_fails bam_in prefix
                right_dic (fun _ o => fst (fst o))) with
      (lines := segments bam_in) (st := st0) (k := k)
      as [Hold|(line & [[r rt] l] & Hin & Ho & Hkey)].
    + intros s line [[r rt] [l lt]] Ho.
      pose proof (process_record_counts right_overhang left_overhang write_fails
                    bam_in prefix s line) as Hc.
      rewrite Ho in Hc. apply Hc.
    + exact Hk.
    + rewrite Hr0, lookup_empty in Hold. now destruct Hold.
    + cbn in Hkey. subst r. eauto.
  - intros k Hk.
    destruct (keys_observed right_overhang left_overhang write_fails bam_in prefix
                left_dic (fun _ o => fst (snd o))) with
      (lines := segments bam_in) (st := st0) (k := k)
      as [Hold|(line & [r [l lt]] & Hin & Ho & Hkey)].
    + intros s line [[r rt] [l lt]] Ho.
      pose proof (process_record_counts right_overhang left_overhang write_fails
                    bam_in prefix s line) as Hc.
      rewrite Ho in Hc. apply Hc.
    + exact Hk.
    + rewrite Hl0, lookup_empty in Hold. now destruct Hold.
    + cbn in Hkey. subst l. eauto.
  - intros k Hk.
    destruct (keys_observed right_overhang left_overhang write_fails bam_in prefix
                type_dic (fun _ o => composite (snd (snd o)) (snd (fst o)))) with
      (lines := segments bam_in) (st := st0) (k := k)
      as [Hold|(line & [[r rt] [l lt]] & Hin & Ho & Hkey)].
    + intros s line [[r rt] [l lt]] Ho.
      pose proof (process_record_counts right_overhang left_overhang write_fails
                    bam_in prefix s line) as Hc.
      rewrite Ho in Hc. apply Hc.
    + exact Hk.
    + rewrite Ht0, lookup_empty in Hold. now destruct Hold.
    + cbn in Hkey. subst k. exists line, r, rt, l, lt. auto.
  - intros k Hk.
    destruct (keys_observed right_overhang left_overhang write_fails bam_in prefix
                read_len_dic (fun line _ => query_length line)) with
      (lines := segments bam_in) (st := st0) (k := k)
      as [Hold|(line & o & Hin & Ho & Hkey)].
    + intros s line [[r rt] [l lt]] Ho.
      pose proof (process_record_counts right_overhang left_overhang write_fails
                    bam_in prefix s line) as Hc.
      rewrite Ho in Hc. apply Hc.
    + exact Hk.
    + rewrite Hq0, lookup_empty in Hold. now destruct Hold.
    + subst k. eauto.
Qed.

End TableClaims.

(** Two references and one counted read on the first: the second
    reference keeps its row, with count 0. *)
Lemma reference_hits_initialised_witness :
  let bam := sample_bam [clipped_read] in
  let st := count_overhangs right_overhang left_overhang never_fails bam "out" in
  In "ref2" (references bam)
  /\ refs_read_dic st !! Some "ref2" = Some 0
  /\ In ["ref2"; "0"] (ref_hits_csv (report_of st))
  /\ is_Some (right_dic st !! 2)
  /\ exists line rt l,
      In line (segments bam)
      /\ observed right_overhang left_overhang bam line = Some ((2, rt), l).
Proof.
  intros bam st.
  destruct (reference_hits_initialised right_overhang left_overhang never_fails
              bam "out") as (_ & _ & Hrefs & Hright & _).
  assert (Hin : In "ref2" (references bam)) by (cbn; auto).
  assert (Hk : is_Some (right_dic st !! 2)) by (vm_compute; eauto).
  destruct (Hrefs "ref2" Hin) as (Hc & Hrow & _).
  split; [exact Hin|]. split; [exact Hc|]. split; [exact Hrow|].
  split; [exact Hk|]. exact (Hright 2 Hk).
Defined.

(** * Further properties of the script *)

(** ** Which records the loop passes over *)

Lemma str_in_D (hay : string) :
  Py.str_in "D" hay = true <-> exists pre post, hay = pre +:+ "D" +:+ post.
Proof.
  induction hay as [|c rest IH].
  - split; [discriminate|]. intros ([|? ?] & post & H); discriminate H.
  - cbn [Py.str_in String.prefix].
    destruct (Ascii.ascii_dec "D" c) as [<-|Hne].
    + split; [|now destruct rest]. intros _. exists "", rest. reflexivity.
    + cbn [orb]. rewrite IH. split.
      * intros (pre & post & ->). exists (String c pre), post. reflexivity.
      * intros ([|c' pre] & post & H); cbn in H.
        -- injection H as H _. congruence.
        -- injection H as _ H. eauto.
Qed.

(** X1. The filter of line 125 rejects a CIGAR string exactly when the
    letter D occurs somewhere in it; no other letter, I included, has
    any influence. *)
Theorem indel_filter_rejects_exactly_D (cigar : string) :
  passes_indel_filter cigar = false
  <-> exists pre post, cigar = pre +:+ "D" +:+ post.
Proof.
  rewrite passes_indel_filter_D, <- str_in_D.
  destruct (Py.str_in "D" cigar); cbn; split; congruence.
Qed.

Section SkippedRecords.

Variable right_overhang :
  AlignmentFile -> AlignedSegment -> list (option Z) -> result (Z * string).
Variable left_overhang :
  AlignmentFile -> AlignedSegment -> list (option Z) -> result (Z * string).
Variable write_fails : AlignedSegment -> string -> bool.
Variable bam_in : AlignmentFile.
Variable prefix : string.

Local Abbreviation process_record' :=
  (process_record right_overhang left_overhang write_fails bam_in prefix).
Local Abbreviation observed' := (observed right_overhang left_overhang bam_in).

(** X2. A record without CIGAR string, and a record whose CIGAR string
    holds the letter D, is passed over before the overhang functions are
    called: the five tables and the partitions stay as they are,
    whatever the overhang functions would return or raise. *)
Theorem record_without_cigar_or_with_D_is_passed_over
    (st : tables) (line : AlignedSegment) :
  cigarstring line = None
  \/ (exists pre post, cigarstring line = Some (pre +:+ "D" +:+ post)) ->
  process_record' st line = st.
Proof.
  intros [Hnone|(pre & post & Hc)]; unfold process_record; rewrite ?Hnone, ?Hc.
  - reflexivity.
  - rewrite passes_indel_filter_D.
    rewrite (proj2 (str_in_D (pre +:+ "D" +:+ post))) by eauto. reflexivity.
Qed.

End SkippedRecords.

(** ** What the tables hold after the loop *)

Lemma incr_changes `{Countable K} (d : gmap K Z) (k : K) : Py.incr d k <> d.
Proof.
  intros Heq. assert (Hk : Py.incr d k !! k = d !! k) by now rewrite Heq.
  unfold Py.incr, Py.get0 in Hk. rewrite lookup_insert_eq in Hk.
  destruct (d !! k) as [v|]; cbn in Hk; [|discriminate].
  injection Hk as Hk. lia.
Qed.

Lemma total_incr `{Countable K} (d : gmap K Z) (k : K) :
  total (Py.incr d k) = total d + 1.
Proof.
  unfold total, Py.incr, Py.get0.
  destruct (d !! k) as [v|] eqn:Hk; cbn.
  - rewrite <- insert_delete_eq.
    rewrite map_fold_insert_L; [|intros; lia|apply lookup_delete_eq].
    rewrite (map_fold_delete_L _ _ k v d); [lia|intros; lia|exact Hk].
  - rewrite map_fold_insert_L; [lia|intros; lia|exact Hk].
Qed.

Lemma total_insert_zero `{Countable K} (d : gmap K Z) (k : K) :
  (forall v, d !! k = Some v -> v = 0) -> total (<[k := 0]> d) = total d.
Proof.
  intros Hzero. unfold total. destruct (d !! k) as [v|] eqn:Hk.
  - rewrite (Hzero v eq_refl) in Hk. now rewrite insert_id.
  - rewrite map_fold_insert_L; [lia|intros; lia|exact Hk].
Qed.

(** After lines 120-121 every entry of the reference-hit table is 0. *)
Lemma init_refs_zero (names : list string) :
  forall st : tables,
    (forall k v, refs_read_dic st !! k = Some v -> v = 0) ->
    (forall k v, refs_read_dic (init_refs names st) !! k = Some v -> v = 0)
    /\ total (refs_read_dic (init_refs names st)) = total (refs_read_dic st).
Proof.
  unfold init_refs.
  induction names as [|n names IH]; intros st Hzero; cbn [fold_left].
  - auto.
  - destruct (IH (set_refs_read_dic (fun d => <[Some n := 0]> d) st)) as [Hz Ht].
    + cbn. intros k v. destruct (decide (k = Some n)) as [->|Hne].
      * rewrite lookup_insert_eq. congruence.
      * rewrite lookup_insert_ne by congruence. apply Hzero.
    + split; [exact Hz|]. rewrite Ht. cbn.
      apply total_insert_zero. intros v. apply Hzero.
Qed.

Lemma init_refs_lookup_None (names : list string) :
  forall st : tables,
    refs_read_dic (init_refs names st) !! None = refs_read_dic st !! None.
Proof.
  unfold init_refs.
  induction names as [|n names IH]; intros st; cbn [fold_left]; [reflexivity|].
  rewrite IH. cbn. now rewrite lookup_insert_ne.
Qed.

Section TablesAfterLoop.

Variable right_overhang :
  AlignmentFile -> AlignedSegment -> list (option Z) -> result (Z * string).
Variable left_overhang :
  AlignmentFile -> AlignedSegment -> list (option Z) -> result (Z * string).
Variable write_fails : AlignedSegment -> string -> bool.
Variable bam_in : AlignmentFile.
Variable prefix : string.

Local Abbreviation process_record' :=
  (process_record right_overhang left_overhang write_fails bam_in prefix).
Local Abbreviation count_records' :=
  (count_records right_overhang left_overhang write_fails bam_in prefix).
Local Abbreviation count_overhangs' :=
  (count_overhangs right_overhang left_overhang write_fails bam_in prefix).
Local Abbreviation observed' := (observed right_overhang left_overhang bam_in).
Local Abbreviation counted_with' :=
  (counted_with right_overhang left_overhang bam_in).
Local Abbreviation counted' := (counted right_overhang left_overhang bam_in).

Local Abbreviation counts_by' :=
  (counts_by right_overhang left_overhang write_fails bam_in prefix).

Lemma right_dic_counts_by : counts_by' right_dic right_key.
Proof.
  intros st line [[r rt] [l lt]] Ho.
  pose proof (process_record_counts right_overhang left_overhang write_fails
                bam_in prefix st line) as Hc.
  rewrite Ho in Hc. apply Hc.
Qed.

Lemma left_dic_counts_by : counts_by' left_dic left_key.
Proof.
  intros st line [[r rt] [l lt]] Ho.
  pose proof (process_record_counts right_overhang left_overhang write_fails
                bam_in prefix st line) as Hc.
  rewrite Ho in Hc. apply Hc.
Qed.

Lemma type_dic_counts_by : counts_by' type_dic type_key.
Proof.
  intros st line [[r rt] [l lt]] Ho.
  pose proof (process_record_counts right_overhang left_overhang write_fails
                bam_in prefix st line) as Hc.
  rewrite Ho in Hc. apply Hc.
Qed.

Lemma read_len_dic_counts_by : counts_by' read_len_dic read_len_key.
Proof.
  intros st line [[r rt] [l lt]] Ho.
  pose proof (process_record_counts right_overhang left_overhang write_fails
                bam_in prefix st line) as Hc.
  rewrite Ho in Hc. apply Hc.
Qed.

Lemma refs_read_dic_counts_by : counts_by' refs_read_dic ref_key.
Proof.
  intros st line [[r rt] [l lt]] Ho.
  pose proof (process_record_counts right_overhang left_overhang write_fails
                bam_in prefix st line) as Hc.
  rewrite Ho in Hc. apply Hc.
Qed.

(** The entry of a key after the loop, from the entry before it and the
    number of records counted under the key. *)
Lemma lookup_after_loop `{Countable K}
    (table : tables -> gmap K Z)
    (key : AlignedSegment -> Z * string * (Z * string) -> K) :
  counts_by' table key ->
  forall (lines : list AlignedSegment) (st : tables) (k : K),
    table (count_records' st lines) !! k
    = match counted_with' key k lines with
      | O => table st !! k
      | S n => Some (Py.get0 (table st) k + Z.of_nat (S n))
      end.
Proof.
  intros Hstep. unfold counted_with, count_records.
  induction lines as [|line rest IH]; intros st k; cbn [fold_left].
  - reflexivity.
  - rewrite IH, filter_cons.
    destruct (observed' line) as [o|] eqn:Ho; cbn [fmap option_fmap option_map].
    + rewrite (Hstep st line o Ho).
      destruct (decide (key line o = k)) as [Heq|Hne].
      * rewrite decide_True by congruence. cbn [length].
        rewrite <- Heq. unfold Py.incr, Py.get0.
        rewrite !lookup_insert_eq. cbn [default]. unfold id.
        destruct (length _); f_equal; lia.
      * rewrite decide_False by congruence.
        unfold Py.incr, Py.get0. rewrite !lookup_insert_ne by exact Hne.
        reflexivity.
    + rewrite decide_False by discriminate.
      now rewrite (process_record_skipped _ _ _ _ _ _ _ Ho).
Qed.

(** The total of a table after the loop. *)
Lemma total_after_loop `{Countable K}
    (table : tables -> gmap K Z)
    (key : AlignedSegment -> Z * string * (Z * string) -> K) :
  counts_by' table key ->
  forall (lines : list AlignedSegment) (st : tables),
    total (table (count_records' st lines))
    = total (table st) + Z.of_nat (counted' lines).
Proof.
  intros Hstep. unfold counted, count_records.
  induction lines as [|line rest IH]; intros st; cbn [fold_left].
  - cbn. lia.
  - rewrite IH, filter_cons.
    destruct (observed' line) as [o|] eqn:Ho.
    + rewrite decide_True by eauto. rewrite (Hstep st line o Ho), total_incr.
      cbn [length]. lia.
    + rewrite decide_False by (intros [? Hs]; discriminate Hs).
      now rewrite (process_record_skipped _ _ _ _ _ _ _ Ho).
Qed.

End TablesAfterLoop.

Lemma counted_with_Permutation `{EqDecision K}
    (right_overhang left_overhang :
       AlignmentFile -> AlignedSegment -> list (option Z) -> result (Z * string))
    (bam_in : AlignmentFile)
    (key : AlignedSegment -> Z * string * (Z * string) -> K) (k : K)
    (lines lines' : list AlignedSegment) :
  Permutation lines lines' ->
  counted_with right_overhang left_overhang bam_in key k lines
  = counted_with right_overhang left_overhang bam_in key k lines'.
Proof.
  intros Hperm. unfold counted_with. apply Permutation_length.
  now rewrite Hperm.
Qed.

Section TableProperties.

Variable right_overhang :
  AlignmentFile -> AlignedSegment -> list (option Z) -> result (Z * string).
Variable left_overhang :
  AlignmentFile -> AlignedSegment -> list (option Z) -> result (Z * string).
Variable write_fails : AlignedSegment -> string -> bool.
Variable bam_in : AlignmentFile.
Variable prefix : string.

Local Abbreviation process_record' :=
  (process_record right_overhang left_overhang write_fails bam_in prefix).
Local Abbreviation count_records' :=
  (count_records right_overhang left_overhang write_fails bam_in prefix).
Local Abbreviation count_overhangs' :=
  (count_overhangs right_overhang left_overhang write_fails bam_in prefix).
Local Abbreviation observed' := (observed right_overhang left_overhang bam_in).
Local Abbreviation counted_with' :=
  (counted_with right_overhang left_overhang bam_in).
Local Abbreviation counted' := (counted right_overhang left_overhang bam_in).

(** X3. One iteration of the loop leaves the state as it was exactly
    when the record is not counted (no CIGAR string, a D in it, or an
    overhang function that raises): a counted record always changes the
    tables, also when its partition write fails. *)
Theorem record_leaves_state_iff_not_counted (st : tables) (line : AlignedSegment) :
  process_record' st line = st <-> observed' line = None.
Proof.
  split; [|apply process_record_skipped].
  intros Hsame. destruct (observed' line) as [o|] eqn:Ho; [|reflexivity].
  exfalso.
  pose proof (right_dic_counts_by right_overhang left_overhang write_fails
                bam_in prefix st line o Ho) as Hstep.
  rewrite Hsame in Hstep. symmetry in Hstep. exact (incr_changes _ _ Hstep).
Qed.

(** X4. After the loop each entry of the right-overhang, left-overhang,
    type and read-length tables is the number of counted records with
    that key, and a key under which no record was counted has no entry:
    no record is counted twice or dropped, and no entry is 0. *)
Theorem counts_are_exact (kz : Z) (ks : string) :
  right_dic count_overhangs' !! kz
  = positive_count (counted_with' right_key kz (segments bam_in))
  /\ left_dic count_overhangs' !! kz
     = positive_count (counted_with' left_key kz (segments bam_in))
  /\ type_dic count_overhangs' !! ks
     = positive_count (counted_with' type_key ks (segments bam_in))
  /\ read_len_dic count_overhangs' !! kz
     = positive_count (counted_with' read_len_key kz (segments bam_in)).
Proof.
  unfold count_overhangs.
  destruct (init_refs_other (references bam_in) empty_tables)
    as (Hr0 & Hl0 & Ht0 & Hq0 & _). cbn in Hr0, Hl0, Ht0, Hq0.
  rewrite (lookup_after_loop _ _ write_fails _ prefix right_dic right_key
             (right_dic_counts_by _ _ _ _ _)).
  rewrite (lookup_after_loop _ _ write_fails _ prefix left_dic left_key
             (left_dic_counts_by _ _ _ _ _)).
  rewrite (lookup_after_loop _ _ write_fails _ prefix type_dic type_key
             (type_dic_counts_by _ _ _ _ _)).
  rewrite (lookup_after_loop _ _ write_fails _ prefix read_len_dic read_len_key
             (read_len_dic_counts_by _ _ _ _ _)).
  unfold Py.get0. rewrite Hr0, Hl0, Ht0, Hq0, !lookup_empty.
  unfold positive_count.
  repeat split; destruct (counted_with' _ _ _); reflexivity.
Qed.

(** X5. After the loop the reference-hit entry of a name is the number
    of records counted for it; a name of the header has an entry even
    when that number is 0, any other name only when it is positive. *)
Theorem reference_hits_are_exact (name : option string) :
  refs_read_dic count_overhangs' !! name
  = let c := counted_with' ref_key name (segments bam_in) in
    match name with
    | Some n =>
        if decide (n ∈ references bam_in) then Some (Z.of_nat c)
        else positive_count c
    | None => positive_count c
    end.
Proof.
  unfold count_overhangs. cbn zeta.
  rewrite (lookup_after_loop _ _ write_fails _ prefix refs_read_dic ref_key
             (refs_read_dic_counts_by _ _ _ _ _)).
  unfold Py.get0, positive_count.
  destruct name as [n|].
  - rewrite init_refs_lookup. cbn [refs_read_dic empty_tables].
    rewrite lookup_empty.
    destruct (decide (n ∈ references bam_in));
      destruct (counted_with' _ _ _); reflexivity.
  - rewrite init_refs_lookup_None. cbn [refs_read_dic empty_tables].
    rewrite lookup_empty. destruct (counted_with' _ _ _); reflexivity.
Qed.

(** X6. After the loop the counts of each of the five tables add up to
    the number of counted records; in particular the right-overhang and
    the left-overhang table have the same total. *)
Theorem totals_are_number_of_counted_records :
  let n := Z.of_nat (counted' (segments bam_in)) in
  total (right_dic count_overhangs') = n
  /\ total (left_dic count_overhangs') = n
  /\ total (type_dic count_overhangs') = n
  /\ total (read_len_dic count_overhangs') = n
  /\ total (refs_read_dic count_overhangs') = n.
Proof.
  unfold count_overhangs. cbn zeta.
  destruct (init_refs_other (references bam_in) empty_tables)
    as (Hr0 & Hl0 & Ht0 & Hq0 & _). cbn in Hr0, Hl0, Ht0, Hq0.
  destruct (init_refs_zero (references bam_in) empty_tables) as [_ Hrefs0].
  { cbn. intros k v. rewrite lookup_empty. discriminate. }
  cbn in Hrefs0.
  rewrite (total_after_loop _ _ write_fails _ prefix right_dic right_key
             (right_dic_counts_by _ _ _ _ _)).
  rewrite (total_after_loop _ _ write_fails _ prefix left_dic left_key
             (left_dic_counts_by _ _ _ _ _)).
  rewrite (total_after_loop _ _ write_fails _ prefix type_dic type_key
             (type_dic_counts_by _ _ _ _ _)).
  rewrite (total_after_loop _ _ write_fails _ prefix read_len_dic read_len_key
             (read_len_dic_counts_by _ _ _ _ _)).
  rewrite (total_after_loop _ _ write_fails _ prefix refs_read_dic ref_key
             (refs_read_dic_counts_by _ _ _ _ _)).
  rewrite Hr0, Hl0, Ht0, Hq0, Hrefs0.
  unfold total. rewrite !map_fold_empty. repeat split; lia.
Qed.

(** X7. The five tables do not depend on the order of the records: two
    runs of the loop over the same records in a different order end
    with the same five dictionaries. *)
Theorem counts_do_not_depend_on_record_order
    (st : tables) (lines lines' : list AlignedSegment) :
  Permutation lines lines' ->
  same_counts (count_records' st lines) (count_records' st lines').
Proof.
  intros Hperm. unfold same_counts.
  repeat split; apply map_eq; intros k.
  - rewrite !(lookup_after_loop _ _ write_fails _ prefix right_dic right_key
                (right_dic_counts_by _ _ _ _ _)).
    now rewrite (counted_with_Permutation _ _ _ _ _ _ _ Hperm).
  - rewrite !(lookup_after_loop _ _ write_fails _ prefix left_dic left_key
                (left_dic_counts_by _ _ _ _ _)).
    now rewrite (counted_with_Permutation _ _ _ _ _ _ _ Hperm).
  - rewrite !(lookup_after_loop _ _ write_fails _ prefix type_dic type_key
                (type_dic_counts_by _ _ _ _ _)).
    now rewrite (counted_with_Permutation _ _ _ _ _ _ _ Hperm).
  - rewrite !(lookup_after_loop _ _ write_fails _ prefix read_len_dic read_len_key
                (read_len_dic_counts_by _ _ _ _ _)).
    now rewrite (counted_with_Permutation _ _ _ _ _ _ _ Hperm).
  - rewrite !(lookup_after_loop _ _ write_fails _ prefix refs_read_dic ref_key
                (refs_read_dic_counts_by _ _ _ _ _)).
    now rewrite (counted_with_Permutation _ _ _ _ _ _ _ Hperm).
Qed.

End TableProperties.

(** A deletion read is passed over. *)
Lemma record_without_cigar_or_with_D_is_passed_over_witness :
  (cigarstring read_with_deletion = None
   \/ exists pre post, cigarstring read_with_deletion = Some (pre +:+ "D" +:+ post))
  /\ process_record right_overhang left_overhang never_fails
                    (sample_bam [read_with_deletion]) "out"
                    empty_tables read_with_deletion
     = empty_tables.
Proof.
  assert (H : cigarstring read_with_deletion = None
              \/ exists pre post,
                  cigarstring read_with_deletion = Some (pre +:+ "D" +:+ post)).
  { right. exists "5M1", "5M". reflexivity. }
  split; [exact H|].
  exact (record_without_cigar_or_with_D_is_passed_over right_overhang left_overhang
           never_fails (sample_bam [read_with_deletion]) "out"
           empty_tables read_with_deletion H).
Defined.

(** The scenario read and the read with an insertion, in both orders. *)
Lemma counts_do_not_depend_on_record_order_witness :
  let bam := sample_bam [clipped_read; read_with_insertion] in
  Permutation [clipped_read; read_with_insertion]
              [read_with_insertion; clipped_read]
  /\ same_counts
       (count_records right_overhang left_overhang never_fails bam "out"
                      empty_tables [clipped_read; read_with_insertion])
       (count_records right_overhang left_overhang never_fails bam "out"
                      empty_tables [read_with_insertion; clipped_read]).
Proof.
  intros bam.
  assert (H : Permutation [clipped_read; read_with_insertion]
                          [read_with_insertion; clipped_read])
    by apply perm_swap.
  split; [exact H|].
  exact (counts_do_not_depend_on_record_order right_overhang left_overhang
           never_fails bam "out" empty_tables _ _ H).
Defined.

(** ** The index-build command (lines 89-92) *)

Lemma split_go_app_space (s1 : string) :
  forall (cur : string) (c : ascii) (s2 : string),
    Py.is_space c = true ->
    Py.split_go cur (s1 +:+ String c s2)
    = Py.split_go cur s1 ++ Py.split_go "" s2.
Proof.
  induction s1 as [|d s1 IH]; intros cur c s2 Hc.
  - change ("" +:+ String c s2) with (String c s2). cbn [Py.split_go].
    rewrite Hc. now destruct cur.
  - change (String d s1 +:+ String c s2) with (String d (s1 +:+ String c s2)).
    cbn [Py.split_go]. destruct (Py.is_space d).
    + destruct cur; cbn [app]; now rewrite IH.
    + now apply IH.
Qed.

Lemma split_go_plain (s : string) :
  forall cur : string,
    no_space s = true -> cur <> "" \/ s <> "" ->
    Py.split_go cur s = [String.rev_app cur s].
Proof.
  induction s as [|d s IH]; intros cur Hs Hne;
    cbn [Py.split_go no_space String.rev_app] in *.
  - destruct Hne as [Hne|Hne]; [|contradiction]. now destruct cur.
  - apply andb_prop in Hs. destruct Hs as [Hd Hs].
    apply negb_true_iff in Hd. rewrite Hd.
    rewrite IH; [reflexivity|exact Hs|now left].
Qed.

(** A non-empty path without white space is one field. *)
Lemma split_plain (s : string) :
  no_space s = true -> s <> "" -> Py.split s = [s].
Proof.
  intros Hs Hne. unfold Py.split. rewrite split_go_plain; auto.
Qed.

Section BuildCommand.

Variable check_dir : string -> string.
Variable splitext_root : string -> string.
Variable path_join : string -> string -> string.
Variable replace_ext : string -> string -> string.
Variable make_unique : string -> string.
Variable mini_maxi : string -> Z * Z.

Local Abbreviation setup' :=
  (setup check_dir splitext_root path_join replace_ext make_unique mini_maxi).
Local Abbreviation build_command' := (build_command splitext_root).

(** X8. The index-build command is the program name followed by the
    white-space separated fields of the reference path and of its base
    name without extension: since the command is made by splitting one
    formatted string, a path that holds a blank is handed over as
    several arguments. *)
Theorem build_command_splits_paths (ref : string) :
  build_command' ref
  = "bowtie2-build" :: Py.split ref ++ Py.split (splitext_root ref).
Proof.
  unfold build_command, Py.split.
  change ("bowtie2-build " +:+ ref +:+ " " +:+ splitext_root ref)
    with ("bowtie2-build" +:+ String " " (ref +:+ String " " (splitext_root ref))).
  rewrite !split_go_app_space by reflexivity. reflexivity.
Qed.

(** X9. When the reference path and its base name are non-empty and
    free of white space, the index is built with exactly the three
    arguments [bowtie2-build], the reference path and the base name,
    and that base name is the index the aligner is given with [-x]:
    the aligner reads the index that was just built, whether or not the
    make-unique flag is set. *)
Theorem index_built_is_index_used (a : args.t) :
  no_space (args.reference a) = true -> args.reference a <> "" ->
  no_space (splitext_root (args.reference a)) = true ->
  splitext_root (args.reference a) <> "" ->
  build_command' (v_ref (setup' a))
  = ["bowtie2-build"; args.reference a; splitext_root (args.reference a)]
  /\ v_command (setup' a) !! 1%nat = Some "-x"
  /\ v_command (setup' a) !! 2%nat = Some (splitext_root (args.reference a)).
Proof.
  intros Hr Hrne Hb Hbne.
  destruct (setup_fields check_dir splitext_root path_join replace_ext
              make_unique mini_maxi a) as (Href & _ & Hbase & _ & _ & _ & Hcmd).
  split.
  - rewrite Href. unfold build_command, Py.split.
    change ("bowtie2-build " +:+ args.reference a +:+ " "
            +:+ splitext_root (args.reference a))
      with ("bowtie2-build"
            +:+ String " " (args.reference a
                            +:+ String " " (splitext_root (args.reference a)))).
    rewrite !split_go_app_space by reflexivity.
    fold (Py.split (args.reference a)).
    fold (Py.split (splitext_root (args.reference a))).
    rewrite (split_plain _ Hr Hrne), (split_plain _ Hb Hbne). reflexivity.
  - rewrite Hcmd, Hbase. split; reflexivity.
Qed.

End BuildCommand.

(** The sample reference [ref.fa], with and without the flag. *)
Lemma index_built_is_index_used_witness :
  let a := sample_args (-1) true in
  (no_space (args.reference a) = true /\ args.reference a <> ""
   /\ no_space (sample_splitext (args.reference a)) = true
   /\ sample_splitext (args.reference a) <> "")
  /\ build_command sample_splitext (v_ref (sample_setup a))
     = ["bowtie2-build"; "ref.fa"; "ref.fa.root"]
  /\ v_command (sample_setup a) !! 1%nat = Some "-x"
  /\ v_command (sample_setup a) !! 2%nat = Some "ref.fa.root".
Proof.
  intros a.
  split; [repeat split; try reflexivity; discriminate|].
  apply (index_built_is_index_used id sample_splitext sample_join
           sample_replace_ext sample_unique sample_mini_maxi a);
    try reflexivity; discriminate.
Defined.

(** ** Decimal numbers: [str] and [int] *)

Lemma rev_app_rev_app (a : string) :
  forall b c : string,
    String.rev_app (String.rev_app a b) c = String.rev_app b (a +:+ c).
Proof.
  induction a as [|x a IH]; intros b c; cbn [String.rev_app].
  - reflexivity.
  - now rewrite IH.
Qed.

Lemma append_empty_r (s : string) : s +:+ "" = s.
Proof.
  induction s as [|c s IH]; [reflexivity|].
  change (String c s +:+ "") with (String c (s +:+ "")). now rewrite IH.
Qed.

Lemma rev_rev (s : string) : String.rev (String.rev s) = s.
Proof.
  unfold String.rev. rewrite rev_app_rev_app. cbn [String.rev_app].
  apply append_empty_r.
Qed.

Lemma no_space_rev_app (a : string) :
  forall b : string,
    no_space (String.rev_app a b) = no_space a && no_space b.
Proof.
  induction a as [|x a IH]; intros b; cbn [String.rev_app no_space].
  - reflexivity.
  - rewrite IH. cbn [no_space].
    destruct (negb (Py.is_space x)), (no_space a), (no_space b); reflexivity.
Qed.

Lemma lstrip_no_space (s : string) : no_space s = true -> Py.lstrip s = s.
Proof.
  destruct s as [|c s]; cbn [no_space Py.lstrip]; [reflexivity|].
  intros H. apply andb_prop in H. destruct H as [Hc _].
  apply negb_true_iff in Hc. now rewrite Hc.
Qed.

(** Stripping a string without white space changes nothing. *)
Lemma strip_no_space (s : string) : no_space s = true -> Py.strip s = s.
Proof.
  intros Hs. unfold Py.strip. rewrite (lstrip_no_space s Hs).
  rewrite lstrip_no_space, rev_rev; [reflexivity|].
  unfold String.rev. rewrite no_space_rev_app, Hs. reflexivity.
Qed.

Lemma digit_of_pretty_N_char (d : N) :
  (d < 10)%N ->
  Py.digit_of (pretty_N_char d) = Some (Z.of_N d)
  /\ Py.is_space (pretty_N_char d) = false.
Proof.
  intros Hd.
  assert (H : (d = 0 \/ d = 1 \/ d = 2 \/ d = 3 \/ d = 4 \/ d = 5 \/ d = 6
               \/ d = 7 \/ d = 8 \/ d = 9)%N) by lia.
  repeat (destruct H as [->|H]); try subst d; split; reflexivity.
Qed.

(** The digits that [str] writes for a positive number contain no white
    space, start with a digit, and are read back as that number. *)
Lemma pretty_N_go_digits (x : N) :
  (0 < x)%N ->
  (forall s, no_space s = true -> no_space (pretty_N_go x s) = true)
  /\ (forall s, exists c rest,
         pretty_N_go x s = String c rest /\ Py.digit_of c <> None)
  /\ exists p,
      forall s acc after_digit,
        Py.digits acc after_digit (pretty_N_go x s)
        = Py.digits (acc * p + Z.of_N x) true s.
Proof.
  induction (N.lt_wf_0 x) as [x _ IH]. intros Hx.
  assert (Hmod : (x `mod` 10 < 10)%N) by (apply N.mod_lt; lia).
  destruct (digit_of_pretty_N_char _ Hmod) as [Hdigit Hspace].
  assert (Hdm : (x = 10 * (x `div` 10) + x `mod` 10)%N)
    by (apply N.div_mod; lia).
  destruct (N.eq_dec (x `div` 10)%N 0%N) as [Hq|Hq].
  - split; [|split].
    + intros s Hs. rewrite pretty_N_go_step, Hq, pretty_N_go_0 by exact Hx.
      cbn [no_space]. now rewrite Hspace, Hs.
    + intros s. rewrite pretty_N_go_step, Hq, pretty_N_go_0 by exact Hx.
      eexists _, _. split; [reflexivity|]. rewrite Hdigit. discriminate.
    + exists 10. intros s acc ad.
      rewrite pretty_N_go_step, Hq, pretty_N_go_0 by exact Hx.
      cbn [Py.digits]. rewrite Hdigit. f_equal. lia.
  - assert (Hlt : (x `div` 10 < x)%N) by (apply N.div_lt; lia).
    destruct (IH _ Hlt ltac:(lia)) as (Hns & Hfirst & p & Hp).
    split; [|split].
    + intros s Hs. rewrite pretty_N_go_step by exact Hx. apply Hns.
      cbn [no_space]. now rewrite Hspace, Hs.
    + intros s. rewrite pretty_N_go_step by exact Hx. apply Hfirst.
    + exists (10 * p). intros s acc ad.
      rewrite pretty_N_go_step, Hp by exact Hx.
      cbn [Py.digits]. rewrite Hdigit. f_equal. lia.
Qed.

Lemma int_unsigned (s : string) (c : ascii) (rest : string) :
  Py.strip s = String c rest -> Py.digit_of c <> None ->
  Py.int s = Py.digits 0 false (String c rest).
Proof.
  intros Hs Hc. unfold Py.int. rewrite Hs.
  destruct c as [[] [] [] [] [] [] [] []]; try reflexivity;
    exfalso; apply Hc; reflexivity.
Qed.

Lemma int_str_pos (p : positive) :
  no_space (pretty (N.pos p)) = true
  /\ Py.int (pretty (N.pos p)) = Ok (Z.pos p)
  /\ Py.digits 0 false (pretty (N.pos p)) = Ok (Z.pos p).
Proof.
  unfold pretty, pretty_N. rewrite decide_False by discriminate.
  destruct (pretty_N_go_digits (N.pos p) ltac:(lia)) as (Hns & Hfirst & q & Hq).
  specialize (Hns "" eq_refl). destruct (Hfirst "") as (c & rest & Hc & Hd).
  assert (Hdigits : Py.digits 0 false (pretty_N_go (N.pos p) "") = Ok (Z.pos p)).
  { rewrite Hq. cbn. reflexivity. }
  split; [exact Hns|]. split; [|exact Hdigits].
  rewrite (int_unsigned _ c rest); [now rewrite <- Hc| |exact Hd].
  rewrite strip_no_space by exact Hns. exact Hc.
Qed.

(** What [str] writes, [int] reads back. *)
Lemma int_str (z : Z) : Py.int (Py.str z) = Ok z.
Proof.
  unfold Py.str, pretty, pretty_Z. destruct z as [|p|p].
  - reflexivity.
  - apply int_str_pos.
  - destruct (int_str_pos p) as (Hns & _ & Hd).
    unfold pretty at 1, pretty_positive.
    unfold Py.int. rewrite strip_no_space.
    + change ("-" +:+ pretty (N.pos p)) with (String "-" (pretty (N.pos p))).
      cbn iota. rewrite Hd. reflexivity.
    + change ("-" +:+ pretty (N.pos p)) with (String "-" (pretty (N.pos p))).
      cbn [no_space]. now rewrite Hns.
Qed.

(** ** Reading the overhang CSV (lines 149-162) *)

Lemma read_row_csv_row (s : summary) (r : string * Z * Z) :
  read_row s (csv_row r)
  = Ok {| keys := keys s ++ [fst (fst r)];
          left_dens := left_dens s ++ [inject_Z (snd (fst r))];
          right_dens := right_dens s ++ [inject_Z (snd r)];
          left_tot := left_tot s + snd (fst r);
          right_tot := right_tot s + snd r |}.
Proof.
  unfold read_row, csv_row, Py.index. cbn [lookup list_lookup Py.bind].
  rewrite !int_str. reflexivity.
Qed.

Lemma read_rows_csv_rows (rows : list (string * Z * Z)) :
  forall s : summary,
    read_rows s (map csv_row rows)
    = Ok {| keys := keys s ++ map (fun r => fst (fst r)) rows;
            left_dens := left_dens s ++ map (fun r => inject_Z (snd (fst r))) rows;
            right_dens := right_dens s ++ map (fun r => inject_Z (snd r)) rows;
            left_tot := left_tot s + column_total (map (fun r => snd (fst r)) rows);
            right_tot := right_tot s + column_total (map snd rows) |}.
Proof.
  induction rows as [|r rows IH]; intros s; cbn [map read_rows column_total fold_right].
  - destruct s. cbn. now rewrite !app_nil_r, !Z.add_0_r.
  - rewrite read_row_csv_row. cbn [Py.bind]. rewrite IH. cbn.
    now rewrite <- !app_assoc, !Z.add_assoc.
Qed.

(** X10. Reading back a CSV file whose data rows hold a key and two
    counts in decimal gives the keys in file order, the two columns of
    counts and, as totals, the sums of the two columns; the header row
    is skipped whatever it holds. *)
Theorem summary_of_written_rows (head : list string) (rows : list (string * Z * Z)) :
  read_summary (head :: map csv_row rows)
  = Ok {| keys := map (fun r => fst (fst r)) rows;
          left_dens := map (fun r => inject_Z (snd (fst r))) rows;
          right_dens := map (fun r => inject_Z (snd r)) rows;
          left_tot := column_total (map (fun r => snd (fst r)) rows);
          right_tot := column_total (map snd rows) |}.
Proof. unfold read_summary. now rewrite read_rows_csv_rows. Qed.









(** ** When the normalisation raises, and what it returns (lines 165-167) *)

(** X13. For a summary read from a file with at least one data row, the
    normalisation ends the script with [ZeroDivisionError] as soon as
    one of the two totals is 0, also when the other column has counts;
    it never raises [IndexError]. *)
Theorem zero_total_ends_the_script (file : csv) (s : summary) :
  read_summary file = Ok s ->
  keys s <> [] ->
  left_tot s = 0 \/ right_tot s = 0 ->
  normalise s = Raise ZeroDivisionError.
Proof.
  intros Hread Hkeys Hzero.
  destruct (read_summary_consistent file s Hread) as [Hl Hr _ _].
  unfold normalise.
  destruct (keys s) as [|k ks]; [contradiction|].
  destruct (left_dens s) as [|x xs] eqn:Hx; [discriminate|].
  destruct (right_dens s) as [|y ys] eqn:Hy; [discriminate|].
  cbn [length seq normalise_loop]. unfold normalise_at, Py.index, percent.
  rewrite Hx, Hy. cbn [lookup list_lookup Py.bind].
  destruct (Z.eqb_spec (left_tot s) 0) as [_|Hne]; [reflexivity|].
  cbn [Py.bind]. destruct Hzero as [Hzero|Hzero]; [contradiction|].
  rewrite Hzero. reflexivity.
Qed.

(** One key, counted once on one side and never on the other. *)
Lemma zero_total_ends_the_script_witness :
  let file := [["OH"; "Left"; "Right"]; ["0"; "1"; "0"]] in
  let s := {| keys := ["0"]; left_dens := [inject_Z 1]; right_dens := [inject_Z 0];
              left_tot := 1; right_tot := 0 |} in
  (read_summary file = Ok s /\ keys s <> [] /\ (left_tot s = 0 \/ right_tot s = 0))
  /\ normalise s = Raise ZeroDivisionError.
Proof.
  intros file s.
  assert (Hread : read_summary file = Ok s) by reflexivity.
  assert (Hkeys : keys s <> []) by discriminate.
  assert (Hzero : left_tot s = 0 \/ right_tot s = 0) by (right; reflexivity).
  split; [auto|].
  exact (zero_total_ends_the_script file s Hread Hkeys Hzero).
Defined.

Lemma qsum_bounds (l : list Q) :
  Forall (fun q => (0 <= q)%Q) l ->
  (0 <= Py.qsum l)%Q
  /\ Forall (fun q => (0 <= q)%Q /\ (q <= Py.qsum l)%Q) l.
Proof.
  unfold Py.qsum. induction 1 as [|x l Hx Hl [IH0 IHle]]; cbn [fold_right].
  - split; [lra|constructor].
  - split; [lra|]. constructor; [lra|].
    eapply Forall_impl; [exact IHle|]. cbn. intros q [Hq0 Hq]. lra.
Qed.

Lemma percent_of_bounds (tot : Z) (c : Q) :
  (0 < inject_Z tot)%Q -> (0 <= c)%Q -> (c <= inject_Z tot)%Q ->
  (0 <= percent_of tot c)%Q /\ (percent_of tot c <= inject_Z 100)%Q.
Proof.
  intros Htot H0 Hle. unfold percent_of. split.
  - apply Qle_shift_div_l; [exact Htot|].
    change (inject_Z 100) with (100 # 1)%Q. lra.
  - apply Qle_shift_div_r; [exact Htot|].
    change (inject_Z 100) with (100 # 1)%Q. lra.
Qed.

Lemma percentages_bounds (tot : Z) (l : list Q) :
  tot <> 0 -> Qeq (Py.qsum l) (inject_Z tot) ->
  Forall (fun q => (0 <= q)%Q) l ->
  Forall (fun p => (0 <= p)%Q /\ (p <= inject_Z 100)%Q) (map (percent_of tot) l).
Proof.
  intros Htot Hsum Hnonneg.
  destruct (qsum_bounds l Hnonneg) as [H0 Hle].
  assert (Hpos : (0 < inject_Z tot)%Q).
  { rewrite Hsum in H0. apply Qle_lt_or_eq in H0. destruct H0 as [H0|H0]; [exact H0|].
    exfalso. apply Htot. unfold Qeq in H0. cbn in H0. lia. }
  apply List.Forall_map.
  eapply Forall_impl; [exact Hle|]. cbn. intros c [Hc0 Hc].
  rewrite Hsum in Hc. now apply percent_of_bounds.
Qed.

(** X14. When the counts read from the file are non-negative and neither
    total is 0, the normalisation succeeds and every value it leaves in
    the two density lists lies between 0 and 100. *)
Theorem percentages_between_0_and_100 (file : csv) (s : summary) :
  read_summary file = Ok s ->
  Forall (fun q => (0 <= q)%Q) (left_dens s) ->
  Forall (fun q => (0 <= q)%Q) (right_dens s) ->
  left_tot s <> 0 -> right_tot s <> 0 ->
  exists s',
    normalise s = Ok s'
    /\ Forall (fun p => (0 <= p)%Q /\ (p <= inject_Z 100)%Q) (left_dens s')
    /\ Forall (fun p => (0 <= p)%Q /\ (p <= inject_Z 100)%Q) (right_dens s').
Proof.
  intros Hread Hl0 Hr0 Hlt Hrt.
  pose proof (read_summary_consistent file s Hread) as Hs.
  destruct (normalise_spec s Hs Hlt Hrt) as (s' & Hn & _ & Hld & Hrd).
  destruct Hs as [_ _ Hsl Hsr].
  exists s'. split; [exact Hn|]. rewrite Hld, Hrd.
  split; now apply percentages_bounds.
Qed.

(** Two keys, with counts 3 and 1 on one side and 1 and 3 on the other:
    the percentages are 75 and 25. *)
Lemma percentages_between_0_and_100_witness :
  let file := [["OH"; "Left"; "Right"]; ["0"; "3"; "1"]; ["2"; "1"; "3"]] in
  let s := {| keys := ["0"; "2"];
              left_dens := [inject_Z 3; inject_Z 1];
              right_dens := [inject_Z 1; inject_Z 3];
              left_tot := 4; right_tot := 4 |} in
  read_summary file = Ok s
  /\ exists s',
      normalise s = Ok s'
      /\ Forall (fun p => (0 <= p)%Q /\ (p <= inject_Z 100)%Q) (left_dens s')
      /\ Forall (fun p => (0 <= p)%Q /\ (p <= inject_Z 100)%Q) (right_dens s').
Proof.
  intros file s. split; [reflexivity|].
  apply (percentages_between_0_and_100 file s); try reflexivity;
    try (cbn; lia);
    repeat constructor; unfold Qle; cbn; lia.
Defined.

(** ** Partition writes and the tables *)

(** X15. What the five tables hold after the loop does not depend on
    which partition writes fail: the write is the last statement of the
    [try] block, so two runs over the same records that differ only in
    the failures of [write_to_bam] end with the same five dictionaries. *)
Theorem counts_do_not_depend_on_partition_writes
    (right_overhang left_overhang :
       AlignmentFile -> AlignedSegment -> list (option Z) -> result (Z * string))
    (write_fails1 write_fails2 : AlignedSegment -> string -> bool)
    (bam_in : AlignmentFile) (prefix1 prefix2 : string)
    (st : tables) (lines : list AlignedSegment) :
  same_counts
    (count_records right_overhang left_overhang write_fails1 bam_in prefix1 st lines)
    (count_records right_overhang left_overhang write_fails2 bam_in prefix2 st lines).
Proof.
  unfold same_counts.
  repeat split; apply map_eq; intros k.
  - now rewrite !(lookup_after_loop _ _ _ _ _ right_dic right_key
                    (right_dic_counts_by _ _ _ _ _)).
  - now rewrite !(lookup_after_loop _ _ _ _ _ left_dic left_key
                    (left_dic_counts_by _ _ _ _ _)).
  - now rewrite !(lookup_after_loop _ _ _ _ _ type_dic type_key
                    (type_dic_counts_by _ _ _ _ _)).
  - now rewrite !(lookup_after_loop _ _ _ _ _ read_len_dic read_len_key
                    (read_len_dic_counts_by _ _ _ _ _)).
  - now rewrite !(lookup_after_loop _ _ _ _ _ refs_read_dic ref_key
                    (refs_read_dic_counts_by _ _ _ _ _)).
Qed.

(** The CIGAR string [5M1D5M] is rejected, [5M1I5M] is not. *)
Lemma indel_filter_rejects_exactly_D_witness :
  passes_indel_filter "5M1D5M" = false /\ passes_indel_filter "5M1I5M" = true.
Proof.
  split; [|reflexivity].
  apply (proj2 (indel_filter_rejects_exactly_D "5M1D5M")).
  exists "5M1", "5M". reflexivity.
Defined.

(** The deletion read is not counted and leaves the tables as they are. *)
Lemma record_leaves_state_iff_not_counted_witness :
  let bam := sample_bam [read_with_deletion] in
  observed right_overhang left_overhang bam read_with_deletion = None
  /\ process_record right_overhang left_overhang never_fails bam "out"
                    empty_tables read_with_deletion
     = empty_tables.
Proof.
  intros bam. split; [reflexivity|].
  apply (proj2 (record_leaves_state_iff_not_counted right_overhang left_overhang
                  never_fails bam "out" empty_tables read_with_deletion)).
  reflexivity.
Defined.
